(** * The pizza order state machine (08.pizza-order-state-machine.py)

    A shallow embedding of the order tools, the step configuration table and
    the step-selecting middleware of the OrderBot example, and the properties
    of the order workflow proved about them.

    Python's [float] is IEEE 754 binary64: it is modelled by Rocq's primitive
    floats, whose [+] and [*] are the same correctly rounded operations.
    Python's [int] is unbounded: it is modelled by [Z].  The builtin [sum]
    adds floats plainly up to CPython 3.11 and with compensation from 3.12
    on: the tools are run under either, and the properties that depend on it
    are stated for both. *)

From Stdlib Require Import ZArith List String Ascii Bool Lia.
From Stdlib Require Import Floats DecimalString.
Import ListNotations.

Set Warnings "-inexact-float".
Local Open Scope string_scope.
Local Open Scope Z_scope.

(** ** The Python primitives the tools use *)

Module Py.

(** The exceptions the modelled code can raise. *)
Inductive exn : Type :=
| OverflowError   (* int too large to convert to float *)
| IndexError.     (* list index out of range *)

Inductive Result (A : Type) : Type :=
| Ok (a : A)
| Raise (e : exn).
Arguments Ok {A} a.
Arguments Raise {A} e.

Definition bind {A B : Type} (r : Result A) (k : A -> Result B) : Result B :=
  match r with
  | Ok a => k a
  | Raise e => Raise e
  end.

Definition is_ok {A : Type} (r : Result A) : bool :=
  match r with Ok _ => true | Raise _ => false end.

(** [d.get(key, default)] on a key that may be absent. *)
Definition get {A : Type} (field : option A) (default : A) : A :=
  match field with
  | Some v => v
  | None => default
  end.

(** [float(n)] for an int [n], as the arithmetic operators apply it to an int
    operand: the nearest binary64 value, ties to even, and OverflowError when
    that value is out of range. *)
Definition float_of_int (n : Z) : Result float :=
  match binary_normalize prec emax n 0 false with
  | S754_infinity _ => Raise OverflowError
  | sf => Ok (SF2Prim sf)
  end.

(** [x * n] for a float [x] and an int [n]. *)
Definition float_mul_int (x : float) (n : Z) : Result float :=
  bind (float_of_int n) (fun y => Ok (x * y)%float).

(** [str(n)] for an int. *)
Definition str_int (n : Z) : string := NilZero.string_of_int (Z.to_int n).

(** [sep.join(parts)]. *)
Definition join (sep : string) (parts : list string) : string :=
  String.concat sep parts.

(** [n / d] rounded to the nearest integer, ties to even ([0 <= n], [0 < d]). *)
Definition round_half_even (n d : Z) : Z :=
  let q := n / d in
  match (2 * (n mod d) ?= d) with
  | Lt => q
  | Gt => q + 1
  | Eq => if Z.even q then q else q + 1
  end.

(** The magnitude [m * 2^e] in hundredths, correctly rounded. *)
Definition hundredths (m : positive) (e : Z) : Z :=
  if 0 <=? e then 100 * Zpos m * 2 ^ e
  else round_half_even (100 * Zpos m) (2 ^ (- e)).

Definition two_digits (n : Z) : string :=
  if n <? 10 then "0" ++ str_int n else str_int n.

Definition fixed2 (negative : bool) (h : Z) : string :=
  (if negative then "-" else "") ++ str_int (h / 100) ++ "." ++ two_digits (h mod 100).

(** [format(x, ".2f")]: the exact binary value rounded to two decimals. *)
Definition format_2f (x : float) : string :=
  match Prim2SF x with
  | S754_zero s => fixed2 s 0
  | S754_finite s m e => fixed2 s (hundredths m e)
  | S754_infinity s => if s then "-inf" else "inf"
  | S754_nan => "nan"
  end.

End Py.
Import Py.

Notation "x <- c ;; k" := (bind c (fun x => k))
  (at level 61, c at next level, right associativity).

(** ** Data model *)

(** [OrderStep]: the possible workflow steps. *)
Module Step.
Inductive t : Type :=
| greeting
| order_collection
| order_type
| delivery_address
| order_summary
| payment.
End Step.
Definition OrderStep : Type := Step.t.

(** [Literal["pickup", "delivery"]]. *)
Inductive OrderType : Type :=
| pickup
| delivery.

Definition str_order_type (t : OrderType) : string :=
  match t with
  | pickup => "pickup"
  | delivery => "delivery"
  end.

(** One entry of [order_items]: the dict [add_item] builds. *)
Record Item : Type := mkItem {
  name : string;
  size : string;
  quantity : Z;
  extras : list string;
  price : float
}.

Inductive Message : Type :=
| HumanMessage (content : string)
| AIMessage (content : string)
| ToolMessage (content : string) (tool_call_id : string).

(** [OrderState]: every key besides [messages] is [NotRequired]. *)
Record OrderState : Type := mkState {
  messages : list Message;
  current_step : option OrderStep;
  order_items : option (list Item);
  order_type : option OrderType;
  delivery_address : option string;
  order_total : option float;
  payment_confirmed : option bool
}.

Record ToolRuntime : Type := mkRuntime {
  state : OrderState;
  tool_call_id : string
}.

(** [Command(update={...})]: a key absent from the update dict is [None]. *)
Record Command : Type := mkCommand {
  upd_messages : list Message;
  upd_current_step : option OrderStep;
  upd_order_items : option (list Item);
  upd_order_type : option OrderType;
  upd_delivery_address : option string;
  upd_order_total : option float;
  upd_payment_confirmed : option bool
}.

(** How the graph runtime folds an update into the state: [messages] is
    appended to, every other key present in the update replaces the old value. *)
Definition overwrite {A : Type} (old new : option A) : option A :=
  match new with
  | Some v => Some v
  | None => old
  end.

Definition apply_update (s : OrderState) (c : Command) : OrderState :=
  {| messages := (messages s ++ upd_messages c)%list;
     current_step := overwrite (current_step s) (upd_current_step c);
     order_items := overwrite (order_items s) (upd_order_items c);
     order_type := overwrite (order_type s) (upd_order_type c);
     delivery_address := overwrite (delivery_address s) (upd_delivery_address c);
     order_total := overwrite (order_total s) (upd_order_total c);
     payment_confirmed := overwrite (payment_confirmed s) (upd_payment_confirmed c) |}.

(** ** Tools *)

Definition start_order (runtime : ToolRuntime) : Command :=
  {| upd_messages :=
       [ToolMessage "Ready to take order. Order collection started."
          (tool_call_id runtime)];
     upd_current_step := Some Step.order_collection;
     upd_order_items := Some [];
     upd_order_type := None;
     upd_delivery_address := None;
     upd_order_total := Some 0%float;
     upd_payment_confirmed := None |}.

(** [item["price"] * item["quantity"]]. *)
Definition line_total (item : Item) : Result float :=
  float_mul_int (price item) (quantity item).

Definition add_item (item_name size : string) (quantity : Z)
    (extras : list string) (price : float) (runtime : ToolRuntime)
  : Result Command :=
  let current_items := get (order_items (state runtime)) [] in
  let current_total := get (order_total (state runtime)) 0%float in
  let new_item :=
    {| name := item_name; size := size; quantity := quantity;
       extras := extras; price := price |} in
  let updated_items := (current_items ++ [new_item])%list in
  line <- float_mul_int price quantity ;;
  let updated_total := (current_total + line)%float in
  let extras_str :=
    match extras with
    | [] => ""
    | _ => " with " ++ join ", " extras
    end in
  Ok {| upd_messages :=
          [ToolMessage
             ("Added: " ++ str_int quantity ++ "x " ++ size ++ " " ++ item_name
                ++ extras_str ++ " ($" ++ format_2f price
                ++ " each). Running total: $" ++ format_2f updated_total)
             (tool_call_id runtime)];
        upd_current_step := None;
        upd_order_items := Some updated_items;
        upd_order_type := None;
        upd_delivery_address := None;
        upd_order_total := Some updated_total;
        upd_payment_confirmed := None |}.

(** The builtin [sum] on floats.  The interpreter decides how it adds, and
    the module asks for no interpreter in particular. *)
Inductive SumAlgorithm : Type :=
| plain          (* CPython up to 3.11: every item is added to the running sum *)
| compensated.   (* CPython 3.12 and later: Neumaier's compensated summation *)

(** [f_result += x] for every item. *)
Fixpoint plain_sum (f_result : float) (xs : list float) : float :=
  match xs with
  | [] => f_result
  | x :: rest => plain_sum (f_result + x)%float rest
  end.

(** The float loop of CPython 3.12: the running sum [f_result] and the
    compensation [c] of its rounding errors, added at the end when it is
    neither zero nor infinite nor a NaN. *)
Fixpoint compensated_sum (f_result c : float) (xs : list float) : float :=
  match xs with
  | [] =>
      if (negb (c =? 0)%float && is_finite c)%bool then (f_result + c)%float
      else f_result
  | x :: rest =>
      let t := (f_result + x)%float in
      let c :=
        if (abs x <=? abs f_result)%float then (c + ((f_result - t) + x))%float
        else (c + ((x - t) + f_result))%float in
      compensated_sum t c rest
  end.

(** [sum(xs)] for floats [xs]: the start value is the int 0, to which the
    first item is added as by [0 + x]; the float loop takes the other items. *)
Definition builtin_sum (version : SumAlgorithm) (xs : list float) : float :=
  match version with
  | plain => plain_sum 0%float xs
  | compensated =>
      match xs with
      | [] => 0%float
      | x :: rest => compensated_sum (0 + x)%float 0%float rest
      end
  end.

(** The generator [item["price"] * item["quantity"] for item in items], run
    to its end: the first product that raises ends the call of [sum] that
    draws from it, so the products are taken first and summed then. *)
Fixpoint lines_of (items : list Item) : Result (list float) :=
  match items with
  | [] => Ok []
  | item :: rest =>
      line <- line_total item ;;
      lines <- lines_of rest ;;
      Ok (line :: lines)
  end.

(** [sum(item["price"] * item["quantity"] for item in items)]. *)
Definition sum_lines (version : SumAlgorithm) (items : list Item) : Result float :=
  lines <- lines_of items ;;
  Ok (builtin_sum version lines).

(** The update of [remove_item] when the position is refused. *)
Definition invalid_item_number (current_items : list Item) (runtime : ToolRuntime)
  : Command :=
  {| upd_messages :=
       [ToolMessage
          ("Invalid item number. Order has "
             ++ str_int (Z.of_nat (List.length current_items)) ++ " items.")
          (tool_call_id runtime)];
     upd_current_step := None;
     upd_order_items := None;
     upd_order_type := None;
     upd_delivery_address := None;
     upd_order_total := None;
     upd_payment_confirmed := None |}.

Definition remove_item (version : SumAlgorithm) (item_index : Z)
    (runtime : ToolRuntime) : Result Command :=
  let current_items := get (order_items (state runtime)) [] in
  if (item_index <? 1) || (item_index >? Z.of_nat (List.length current_items)) then
    Ok (invalid_item_number current_items runtime)
  else
    match nth_error current_items (Z.to_nat (item_index - 1)) with
    | None => Raise IndexError
    | Some removed_item =>
        let updated_items :=
          (firstn (Z.to_nat (item_index - 1)) current_items
             ++ skipn (Z.to_nat item_index) current_items)%list in
        (* Recalculate total *)
        updated_total <- sum_lines version updated_items ;;
        Ok {| upd_messages :=
                [ToolMessage
                   ("Removed: " ++ name removed_item ++ ". New total: $"
                      ++ format_2f updated_total)
                   (tool_call_id runtime)];
              upd_current_step := None;
              upd_order_items := Some updated_items;
              upd_order_type := None;
              upd_delivery_address := None;
              upd_order_total := Some updated_total;
              upd_payment_confirmed := None |}
    end.

(** An update that posts one tool message and moves to [next_step]. *)
Definition move_to (text : string) (next_step : OrderStep) (runtime : ToolRuntime)
  : Command :=
  {| upd_messages := [ToolMessage text (tool_call_id runtime)];
     upd_current_step := Some next_step;
     upd_order_items := None;
     upd_order_type := None;
     upd_delivery_address := None;
     upd_order_total := None;
     upd_payment_confirmed := None |}.

Definition finish_order_collection (runtime : ToolRuntime) : Command :=
  move_to "Order collection complete. Now asking about pickup or delivery."
    Step.order_type runtime.

Definition set_order_type (order_type : OrderType) (runtime : ToolRuntime) : Command :=
  let next_step :=
    match order_type with
    | delivery => Step.delivery_address
    | _ => Step.order_summary
    end in
  {| upd_messages :=
       [ToolMessage ("Order type set to: " ++ str_order_type order_type)
          (tool_call_id runtime)];
     upd_current_step := Some next_step;
     upd_order_items := None;
     upd_order_type := Some order_type;
     upd_delivery_address := None;
     upd_order_total := None;
     upd_payment_confirmed := None |}.

Definition set_delivery_address (address : string) (runtime : ToolRuntime) : Command :=
  {| upd_messages :=
       [ToolMessage ("Delivery address recorded: " ++ address)
          (tool_call_id runtime)];
     upd_current_step := Some Step.order_summary;
     upd_order_items := None;
     upd_order_type := None;
     upd_delivery_address := Some address;
     upd_order_total := None;
     upd_payment_confirmed := None |}.

Definition confirm_order (runtime : ToolRuntime) : Command :=
  move_to "Order confirmed! Moving to payment." Step.payment runtime.

Definition add_more_items (runtime : ToolRuntime) : Command :=
  move_to "Going back to add more items." Step.order_collection runtime.

(** The two amounts [process_payment] computes: [(tax, final_total)]. *)
Definition payment_amounts (order_total : float) : float * float :=
  (* Add tax (8.5%) *)
  let tax := (order_total * 0.085)%float in
  let final_total := (order_total + tax)%float in
  (tax, final_total).

Definition process_payment (payment_method : string) (runtime : ToolRuntime)
  : Command :=
  let order_total := get (order_total (state runtime)) 0%float in
  (* the order type is read too, defaulting to pickup, and not used *)
  let '(tax, final_total) := payment_amounts order_total in
  {| upd_messages :=
       [ToolMessage
          ("Payment processed via " ++ payment_method ++ ". Subtotal: $"
             ++ format_2f order_total ++ ", Tax: $" ++ format_2f tax
             ++ ", Total: $" ++ format_2f final_total
             ++ ". Order placed successfully!")
          (tool_call_id runtime)];
     upd_current_step := None;
     upd_order_items := None;
     upd_order_type := None;
     upd_delivery_address := None;
     upd_order_total := None;
     upd_payment_confirmed := Some true |}.

Definition go_back_to_order (runtime : ToolRuntime) : Command :=
  move_to "Going back to order collection." Step.order_collection runtime.

(** ** Prompts for each step *)

(** The replacement fields the prompts contain. *)
Module Hole.
Inductive t : Type :=
| order_items        (* {order_items} *)
| order_total_2f     (* {order_total:.2f} *)
| order_type         (* {order_type} *)
| delivery_address.  (* {delivery_address} *)
End Hole.

(** A format string, split at its replacement fields. *)
Inductive Piece : Type :=
| Text (s : string)
| Fill (h : Hole.t).

Definition Template : Type := list Piece.

Definition MENU : string :=
  "
🍕 **PIZZAS** (Large / Medium / Small):
   • Pepperoni Pizza: $12.95 / $10.00 / $7.00
   • Cheese Pizza: $10.95 / $9.25 / $6.50
   • Eggplant Pizza: $11.95 / $9.75 / $6.75

🍟 **SIDES**:
   • Fries: $4.50 (Large) / $3.50 (Regular)
   • Greek Salad: $7.25

🧀 **TOPPINGS** (Extra):
   • Extra Cheese: $2.00
   • Mushrooms: $1.50
   • Sausage: $3.00
   • Canadian Bacon: $3.50
   • AI Sauce: $1.50
   • Peppers: $1.00

🥤 **DRINKS** (Large / Medium / Small):
   • Coke: $3.00 / $2.00 / $1.00
   • Sprite: $3.00 / $2.00 / $1.00
   • Bottled Water: $5.00
".

Definition GREETING_PROMPT : Template :=
  [ Text ("You are OrderBot 🍕, a friendly automated ordering assistant for Mario's Pizza.

CURRENT STEP: Greeting

Your job is to:
1. Give a warm, friendly greeting
2. Let the customer know you're here to help them order
3. Show them the menu
4. Use the start_order tool when they're ready to order

Be conversational, friendly, and upbeat! Use emojis occasionally.

Here's the menu to share:
" ++ MENU ++ "

After greeting and showing the menu, wait for the customer to indicate they want to order, then use start_order.") ].

Definition ORDER_COLLECTION_PROMPT : Template :=
  [ Text "You are OrderBot 🍕, a friendly pizza ordering assistant.

CURRENT STEP: Order Collection
CURRENT ORDER: ";
    Fill Hole.order_items;
    Text "
CURRENT TOTAL: $";
    Fill Hole.order_total_2f;
    Text ("

At this step, you need to:
1. Help the customer choose items from the menu
2. For pizzas: ALWAYS clarify the size (small, medium, large)
3. For pizzas: Ask about extra toppings
4. For fries: Ask if they want large or regular
5. For drinks (except bottled water): Ask for size (small, medium, large)
6. Use add_item to add each item with correct price
7. When they're done ordering, use finish_order_collection

PRICING REFERENCE:
" ++ MENU ++ "

IMPORTANT: 
- Calculate prices correctly including extras
- Be conversational and friendly
- Confirm each item as you add it
- If customer says they're done ordering or that's all, use finish_order_collection") ].

Definition ORDER_TYPE_PROMPT : Template :=
  [ Text "You are OrderBot 🍕, a friendly pizza ordering assistant.

CURRENT STEP: Pickup or Delivery
CURRENT ORDER: ";
    Fill Hole.order_items;
    Text "
ORDER TOTAL: $";
    Fill Hole.order_total_2f;
    Text "

At this step, you need to:
1. Ask if this is for pickup or delivery
2. Use set_order_type to record their answer

Keep it brief and friendly!" ].

Definition DELIVERY_ADDRESS_PROMPT : Template :=
  [ Text "You are OrderBot 🍕, a friendly pizza ordering assistant.

CURRENT STEP: Delivery Address
ORDER TYPE: Delivery 🚗

At this step, you need to:
1. Ask for their complete delivery address
2. Get street address, city, and any apartment/unit number
3. Use set_delivery_address to record the address

Make sure to get a complete, deliverable address!" ].

Definition ORDER_SUMMARY_PROMPT : Template :=
  [ Text "You are OrderBot 🍕, a friendly pizza ordering assistant.

CURRENT STEP: Order Summary & Final Check
CURRENT ORDER: ";
    Fill Hole.order_items;
    Text "
ORDER TOTAL: $";
    Fill Hole.order_total_2f;
    Text "
ORDER TYPE: ";
    Fill Hole.order_type;
    Text "
DELIVERY ADDRESS: ";
    Fill Hole.delivery_address;
    Text "

At this step, you need to:
1. Summarize the complete order with all items and prices
2. Show the subtotal (tax will be added at payment)
3. Confirm the order type (pickup/delivery) and address if delivery
4. Ask if they'd like to add anything else
5. If they want to add more → use add_more_items
6. If order is complete → use confirm_order

Format the order summary nicely and make it easy to read!" ].

Definition PAYMENT_PROMPT : Template :=
  [ Text "You are OrderBot 🍕, a friendly pizza ordering assistant.

CURRENT STEP: Payment 💳
CURRENT ORDER: ";
    Fill Hole.order_items;
    Text "
ORDER TOTAL: $";
    Fill Hole.order_total_2f;
    Text "
ORDER TYPE: ";
    Fill Hole.order_type;
    Text "
DELIVERY ADDRESS: ";
    Fill Hole.delivery_address;
    Text "

At this step, you need to:
1. Show the final total with tax (8.5%)
2. Ask how they'd like to pay (credit card, debit, cash)
3. Use process_payment to complete the order

Note: If they want to change their order, use go_back_to_order.

After payment, thank them and:
- For pickup: Tell them the order will be ready in 15-20 minutes
- For delivery: Tell them delivery will be 30-45 minutes" ].

(** ** Step configuration *)

Module Tool.
Inductive t : Type :=
| start_order
| add_item
| remove_item
| finish_order_collection
| set_order_type
| set_delivery_address
| confirm_order
| add_more_items
| process_payment
| go_back_to_order.
End Tool.

Module StepConfig.
Record t : Type := mk {
  prompt : Template;
  tools : list Tool.t;
  requires : list string
}.
End StepConfig.

Definition STEP_CONFIG (step : OrderStep) : StepConfig.t :=
  match step with
  | Step.greeting =>
      {| StepConfig.prompt := GREETING_PROMPT;
         StepConfig.tools := [Tool.start_order];
         StepConfig.requires := [] |}
  | Step.order_collection =>
      {| StepConfig.prompt := ORDER_COLLECTION_PROMPT;
         StepConfig.tools :=
           [Tool.add_item; Tool.remove_item; Tool.finish_order_collection];
         StepConfig.requires := [] |}
  | Step.order_type =>
      {| StepConfig.prompt := ORDER_TYPE_PROMPT;
         StepConfig.tools := [Tool.set_order_type; Tool.go_back_to_order];
         StepConfig.requires := ["order_items"] |}
  | Step.delivery_address =>
      {| StepConfig.prompt := DELIVERY_ADDRESS_PROMPT;
         StepConfig.tools := [Tool.set_delivery_address; Tool.go_back_to_order];
         StepConfig.requires := ["order_type"] |}
  | Step.order_summary =>
      {| StepConfig.prompt := ORDER_SUMMARY_PROMPT;
         StepConfig.tools := [Tool.confirm_order; Tool.add_more_items];
         StepConfig.requires := ["order_items"; "order_type"] |}
  | Step.payment =>
      {| StepConfig.prompt := PAYMENT_PROMPT;
         StepConfig.tools := [Tool.process_payment; Tool.go_back_to_order];
         StepConfig.requires := ["order_items"; "order_type"] |}
  end.

(** ** Middleware *)

(** The values [apply_step_config] formats a prompt with. *)
Record FormatValues : Type := mkFormatValues {
  fv_order_items : list Item;
  fv_order_total : float;
  fv_order_type : string;
  fv_delivery_address : string
}.

Module ModelRequest.
Record t : Type := mk {
  state : OrderState;
  system_prompt : option string;
  tools : list Tool.t
}.

(** [request.override(system_prompt=..., tools=...)]: a copy of the request
    with the two attributes replaced. *)
Definition override (request : t) (system_prompt : string) (tools : list Tool.t) : t :=
  {| state := state request;
     system_prompt := Some system_prompt;
     tools := tools |}.
End ModelRequest.

Section Middleware.

(** [str] of a list of item dicts, as a bare replacement field renders it. *)
Variable str_items : list Item -> string.
(** What the wrapped model call returns. *)
Variable ModelResponse : Type.

Definition fill (values : FormatValues) (h : Hole.t) : string :=
  match h with
  | Hole.order_items => str_items (fv_order_items values)
  | Hole.order_total_2f => format_2f (fv_order_total values)
  | Hole.order_type => fv_order_type values
  | Hole.delivery_address => fv_delivery_address values
  end.

(** [str.format] of a template, the values passed by keyword. *)
Fixpoint format (template : Template) (values : FormatValues) : string :=
  match template with
  | [] => ""
  | Text s :: rest => s ++ format rest values
  | Fill h :: rest => fill values h ++ format rest values
  end.

(** The request [apply_step_config] hands to the handler. *)
Definition step_request (request : ModelRequest.t) : ModelRequest.t :=
  (* Get current step (defaults to greeting for first interaction) *)
  let current_step :=
    get (current_step (ModelRequest.state request)) Step.greeting in
  (* Look up step configuration *)
  let step_config := STEP_CONFIG current_step in
  (* Prepare format values with defaults *)
  let format_values :=
    {| fv_order_items := get (order_items (ModelRequest.state request)) [];
       fv_order_total := get (order_total (ModelRequest.state request)) 0%float;
       fv_order_type :=
         get (option_map str_order_type (order_type (ModelRequest.state request)))
           "not set";
       fv_delivery_address :=
         get (delivery_address (ModelRequest.state request)) "N/A" |} in
  (* Format prompt with state values *)
  let system_prompt := format (StepConfig.prompt step_config) format_values in
  (* Inject system prompt and step-specific tools *)
  ModelRequest.override request system_prompt (StepConfig.tools step_config).

Definition apply_step_config (request : ModelRequest.t)
    (handler : ModelRequest.t -> ModelResponse) : ModelResponse :=
  handler (step_request request).

End Middleware.

(** ** Running the tools *)

Section Interpreter.

(** The interpreter's [sum]. *)
Variable version : SumAlgorithm.

(** A tool call: the tool and the arguments the model chose. *)
Inductive ToolCall : Type :=
| call_start_order
| call_add_item (item_name size : string) (quantity : Z) (extras : list string)
    (price : float)
| call_remove_item (item_index : Z)
| call_finish_order_collection
| call_set_order_type (order_type : OrderType)
| call_set_delivery_address (address : string)
| call_confirm_order
| call_add_more_items
| call_process_payment (payment_method : string)
| call_go_back_to_order.

Definition tool_of (call : ToolCall) : Tool.t :=
  match call with
  | call_start_order => Tool.start_order
  | call_add_item _ _ _ _ _ => Tool.add_item
  | call_remove_item _ => Tool.remove_item
  | call_finish_order_collection => Tool.finish_order_collection
  | call_set_order_type _ => Tool.set_order_type
  | call_set_delivery_address _ => Tool.set_delivery_address
  | call_confirm_order => Tool.confirm_order
  | call_add_more_items => Tool.add_more_items
  | call_process_payment _ => Tool.process_payment
  | call_go_back_to_order => Tool.go_back_to_order
  end.

Definition invoke (call : ToolCall) (runtime : ToolRuntime) : Result Command :=
  match call with
  | call_start_order => Ok (start_order runtime)
  | call_add_item item_name size quantity extras price =>
      add_item item_name size quantity extras price runtime
  | call_remove_item item_index => remove_item version item_index runtime
  | call_finish_order_collection => Ok (finish_order_collection runtime)
  | call_set_order_type order_type => Ok (set_order_type order_type runtime)
  | call_set_delivery_address address => Ok (set_delivery_address address runtime)
  | call_confirm_order => Ok (confirm_order runtime)
  | call_add_more_items => Ok (add_more_items runtime)
  | call_process_payment payment_method => Ok (process_payment payment_method runtime)
  | call_go_back_to_order => Ok (go_back_to_order runtime)
  end.

(** One tool call on a state: the tool runs on the state and its update is
    folded into it; a tool that raises leaves no update. *)
Definition run (call : ToolCall) (id : string) (s : OrderState) : Result OrderState :=
  c <- invoke call {| state := s; tool_call_id := id |} ;;
  Ok (apply_update s c).

(** A sequence of tool calls, each on the state the one before left; the
    result lists the state after every call. *)
Fixpoint run_calls (calls : list ToolCall) (id : string) (s : OrderState)
  : Result (list OrderState) :=
  match calls with
  | [] => Ok []
  | call :: rest =>
      s' <- run call id s ;;
      trace <- run_calls rest id s' ;;
      Ok (s' :: trace)
  end.

(** The state a conversation starts from: the first human message, no other key. *)
Definition initial_state (first_message : string) : OrderState :=
  {| messages := [HumanMessage first_message];
     current_step := None;
     order_items := None;
     order_type := None;
     delivery_address := None;
     order_total := None;
     payment_confirmed := None |}.

(** The state after the last call of a sequence. *)
Definition final_state (calls : list ToolCall) (id : string) (s : OrderState)
  : Result OrderState :=
  trace <- run_calls calls id s ;;
  Ok (last trace s).

(** ** Vocabulary of the properties *)

(** The int converts to a float ([float_of_int] does not raise). *)
Definition fits_float (n : Z) : bool := is_ok (float_of_int n).

(** The state [s] with its [current_step] key replaced (or dropped). *)
Definition at_step (step : option OrderStep) (s : OrderState) : OrderState :=
  {| messages := messages s;
     current_step := step;
     order_items := order_items s;
     order_type := order_type s;
     delivery_address := delivery_address s;
     order_total := order_total s;
     payment_confirmed := payment_confirmed s |}.

(** [xs] are the products price times quantity of [items], in order. *)
Definition products (items : list Item) (xs : list float) : Prop :=
  Forall2
    (fun item x =>
       exists q, float_of_int (quantity item) = Ok q /\ x = (price item * q)%float)
    items xs.

(** What [sum] returns on floats, as a fold over them: where it adds plainly,
    every item added to the sum of the items before it; where it compensates,
    that running sum [f] beside the collected rounding errors [c], which are
    added at the end unless they are zero, infinite or a NaN. *)
Definition sum_of (xs : list float) : float :=
  match version with
  | plain => fold_left PrimFloat.add xs 0%float
  | compensated =>
      match xs with
      | [] => 0%float
      | x1 :: rest =>
          let '(f, c) :=
            fold_left
              (fun '(f, c) x =>
                 let t := (f + x)%float in
                 (t, if (abs x <=? abs f)%float then (c + ((f - t) + x))%float
                     else (c + ((x - t) + f))%float))
              rest ((0 + x1)%float, 0%float) in
          if (negb (c =? 0)%float && is_finite c)%bool then (f + c)%float else f
      end
  end.


(** [order_total] is [sum] of the products of the items [kept] at the last
    removal (none at the start), to which the products of the items [added]
    since were added one after the other. *)
Definition tracked (s : OrderState) : Prop :=
  exists kept added xs ys,
    order_items s = Some (kept ++ added)%list /\
    products kept xs /\ products added ys /\
    order_total s = Some (fold_left PrimFloat.add ys (sum_of xs)).

(** The calls that edit the item list, with a quantity that converts to float. *)
Definition edit_call (call : ToolCall) : bool :=
  match call with
  | call_add_item _ _ quantity _ _ => fits_float quantity
  | call_remove_item _ => true
  | _ => false
  end.

(** The state right after [start_order]. *)
Definition started (s : OrderState) (id : string) : OrderState :=
  apply_update s (start_order {| state := s; tool_call_id := id |}).

(** The pickup scenario: one medium cheese pizza, paid in cash. *)
Definition pickup_scenario : list ToolCall :=
  [ call_start_order;
    call_add_item "Cheese Pizza" "medium" 1 [] 9.25%float;
    call_finish_order_collection;
    call_set_order_type pickup;
    call_confirm_order;
    call_process_payment "cash" ].

(** The 2-item order of the scenarios: a cheese pizza and two cokes. *)
Definition two_items : list Item :=
  [ {| name := "Cheese Pizza"; size := "medium"; quantity := 1; extras := [];
       price := 9.25%float |};
    {| name := "Coke"; size := "large"; quantity := 2; extras := [];
       price := 3%float |} ].

Definition collecting_two_items : ToolRuntime :=
  {| state :=
       {| messages := [];
          current_step := Some Step.order_collection;
          order_items := Some two_items;
          order_type := None;
          delivery_address := None;
          order_total := Some 15.25%float;
          payment_confirmed := None |};
     tool_call_id := "call_1" |}.

(** A conversation that has just begun: step greeting, nothing ordered. *)
Definition greeting_runtime : ToolRuntime :=
  {| state :=
       {| messages := [HumanMessage "Hi, I'd like to order some pizza"];
          current_step := Some Step.greeting;
          order_items := None;
          order_type := None;
          delivery_address := None;
          order_total := None;
          payment_confirmed := None |};
     tool_call_id := "call_1" |}.

(** The 2-item order at a later step, with the keys of that step set. *)
Definition two_items_at (step : OrderStep) (type : option OrderType)
    (confirmed : option bool) : ToolRuntime :=
  {| state :=
       {| messages := [];
          current_step := Some step;
          order_items := Some two_items;
          order_type := type;
          delivery_address := None;
          order_total := Some 15.25%float;
          payment_confirmed := confirmed |};
     tool_call_id := "call_7" |}.

(** An order of 10.00 waiting for payment. *)
Definition paying_ten : ToolRuntime :=
  {| state :=
       {| messages := [];
          current_step := Some Step.payment;
          order_items :=
            Some [ {| name := "Pepperoni Pizza"; size := "medium"; quantity := 1;
                      extras := []; price := 10%float |} ];
          order_type := Some pickup;
          delivery_address := None;
          order_total := Some 10%float;
          payment_confirmed := None |};
     tool_call_id := "call_9" |}.

(** Four pizzas, then a drink that is added and taken off again. *)
Definition drifting_edits : list ToolCall :=
  [ call_add_item "Pepperoni Pizza" "large" 1 [] 12.95%float;
    call_add_item "Eggplant Pizza" "medium" 1 [] 9.75%float;
    call_add_item "Eggplant Pizza" "medium" 1 [] 9.75%float;
    call_add_item "Pepperoni Pizza" "large" 1 [] 12.95%float;
    call_add_item "Coke" "small" 1 [] 1%float;
    call_remove_item 5 ].

(** The replacement fields of a template, in order. *)
Fixpoint holes (template : Template) : list Hole.t :=
  match template with
  | [] => []
  | Text _ :: rest => holes rest
  | Fill h :: rest => h :: holes rest
  end.

(** ** The rest of the module *)

(** [x or []] for a list that may be None: None and the empty list are falsy. *)
Definition or_empty {A : Type} (x : option (list A)) : list A :=
  match x with
  | Some (a :: l) => a :: l
  | _ => []
  end.

(** How to merge multiple updates to order_items in a single step. *)
Definition merge_order_items (left right : option (list Item)) : list Item :=
  (or_empty left ++ or_empty right)%list.

(** The tools the agent is created with. *)
Definition all_tools : list Tool.t :=
  [ Tool.start_order;
    Tool.add_item;
    Tool.remove_item;
    Tool.finish_order_collection;
    Tool.set_order_type;
    Tool.set_delivery_address;
    Tool.confirm_order;
    Tool.add_more_items;
    Tool.process_payment;
    Tool.go_back_to_order ].

Definition tool_eq_dec (a b : Tool.t) : {a = b} + {a <> b}.
Proof. decide equality. Defined.

(** The reply the chat loop prints after a turn: going through the messages
    from the last one backwards, the content of the first AI message whose
    content is not empty. *)
Fixpoint first_reply (msgs : list Message) : option string :=
  match msgs with
  | [] => None
  | AIMessage (String a content) :: _ => Some (String a content)
  | _ :: rest => first_reply rest
  end.

Definition printed_reply (messages : list Message) : option string :=
  first_reply (rev messages).

(** ** The agent's turns *)

(** The step the middleware reads from a state. *)
Definition step_of (s : OrderState) : OrderStep :=
  get (current_step s) Step.greeting.

(** The call is of a tool that [apply_step_config] offers on this state. *)
Definition offered (s : OrderState) (call : ToolCall) : bool :=
  if in_dec tool_eq_dec (tool_of call) (StepConfig.tools (STEP_CONFIG (step_of s)))
  then true else false.

(** One tool call of the agent: the model is handed the offered tools only, so
    the call is of one of them; it is run on the state, one call at a time,
    and did not raise. *)
Definition run_offered (call : ToolCall) (id : string) (s : OrderState)
  : option OrderState :=
  if offered s call then
    match run call id s with
    | Ok s' => Some s'
    | Raise _ => None
    end
  else None.

Fixpoint run_offered_calls (calls : list ToolCall) (id : string) (s : OrderState)
  : option OrderState :=
  match calls with
  | [] => Some s
  | call :: rest =>
      match run_offered call id s with
      | Some s' => run_offered_calls rest id s'
      | None => None
      end
  end.

(** The state with its message list replaced: what the model's replies, the
    user's messages and the summarization of the history do to a state. *)
Definition with_messages (msgs : list Message) (s : OrderState) : OrderState :=
  {| messages := msgs;
     current_step := current_step s;
     order_items := order_items s;
     order_type := order_type s;
     delivery_address := delivery_address s;
     order_total := order_total s;
     payment_confirmed := payment_confirmed s |}.

(** The states a conversation goes through: from the initial state, by calls
    of offered tools and by changes of the message list. *)
Inductive reachable : OrderState -> Prop :=
| reach_initial (first_message : string) : reachable (initial_state first_message)
| reach_call (s s' : OrderState) (call : ToolCall) (id : string) :
    reachable s -> run_offered call id s = Some s' -> reachable s'
| reach_messages (s : OrderState) (msgs : list Message) :
    reachable s -> reachable (with_messages msgs s).

Definition present {A : Type} (field : option A) : bool :=
  match field with
  | Some _ => true
  | None => false
  end.

(** [key in state], for the keys of [OrderState]. *)
Definition has_key (s : OrderState) (key : string) : bool :=
  if (key =? "messages")%string then true
  else if (key =? "current_step")%string then present (current_step s)
  else if (key =? "order_items")%string then present (order_items s)
  else if (key =? "order_type")%string then present (order_type s)
  else if (key =? "delivery_address")%string then present (delivery_address s)
  else if (key =? "order_total")%string then present (order_total s)
  else if (key =? "payment_confirmed")%string then present (payment_confirmed s)
  else false.

(** What holds of every state of a conversation (see [reachable]): before
    start_order no key of the order is set; afterwards the step is never
    greeting again, the total is tracked (see [tracked]), the order type is
    known from the step that needs it on, a delivery order past the address
    step has its address, and the payment flag is unset or true. *)
Definition workflow_invariant (s : OrderState) : Prop :=
  (current_step s = None ->
   order_items s = None /\ order_total s = None /\ order_type s = None /\
   delivery_address s = None /\ payment_confirmed s = None) /\
  (forall step, current_step s = Some step ->
     step <> Step.greeting /\ tracked s /\
     (step = Step.delivery_address -> order_type s = Some delivery) /\
     (step = Step.order_summary \/ step = Step.payment ->
      order_type s <> None /\
      (order_type s = Some delivery -> delivery_address s <> None))) /\
  (payment_confirmed s = None \/
   (payment_confirmed s = Some true /\ order_type s <> None)).

(** The steps one offered tool call can lead from and to. *)
Definition step_edges : list (OrderStep * OrderStep) :=
  [ (Step.greeting, Step.order_collection);
    (Step.order_collection, Step.order_collection);
    (Step.order_collection, Step.order_type);
    (Step.order_type, Step.delivery_address);
    (Step.order_type, Step.order_summary);
    (Step.order_type, Step.order_collection);
    (Step.delivery_address, Step.order_summary);
    (Step.delivery_address, Step.order_collection);
    (Step.order_summary, Step.payment);
    (Step.order_summary, Step.order_collection);
    (Step.payment, Step.payment);
    (Step.payment, Step.order_collection) ].

(** A delivery order, from the first message to the payment. *)
Definition delivery_scenario : list ToolCall :=
  [ call_start_order;
    call_add_item "Pepperoni Pizza" "large" 2 ["mushrooms"] 14.45%float;
    call_add_item "Coke" "small" 1 [] 1%float;
    call_remove_item 2;
    call_finish_order_collection;
    call_set_order_type delivery;
    call_set_delivery_address "12 Elm Street, Springfield";
    call_confirm_order;
    call_process_payment "credit card" ].

(** The state the delivery order ends in. *)
Definition delivered : OrderState :=
  match run_offered_calls delivery_scenario "call_1"
          (initial_state "Hi, I'd like to order some pizza") with
  | Some s => s
  | None => initial_state "Hi, I'd like to order some pizza"
  end.

(** A request for a turn at the order summary of the 2-item pickup order. *)
Definition summary_request : ModelRequest.t :=
  {| ModelRequest.state :=
       state (two_items_at Step.order_summary (Some pickup) None);
     ModelRequest.system_prompt := None;
     ModelRequest.tools := all_tools |}.

(** A stand-in for [str] of the item list: the names of the items. *)
Definition item_names (items : list Item) : string :=
  join ", " (map name items).

(** The offered calls that take an order from a step to its payment. *)
Definition calls_to_payment (step : OrderStep) : list ToolCall :=
  match step with
  | Step.greeting =>
      [ call_start_order; call_finish_order_collection; call_set_order_type pickup;
        call_confirm_order; call_process_payment "cash" ]
  | Step.order_collection =>
      [ call_finish_order_collection; call_set_order_type pickup;
        call_confirm_order; call_process_payment "cash" ]
  | Step.order_type =>
      [ call_set_order_type pickup; call_confirm_order; call_process_payment "cash" ]
  | Step.delivery_address =>
      [ call_set_delivery_address "12 Elm Street, Springfield";
        call_confirm_order; call_process_payment "cash" ]
  | Step.order_summary => [ call_confirm_order; call_process_payment "cash" ]
  | Step.payment => [ call_process_payment "cash" ]
  end.

(** * Properties *)

(** ** Summing lines *)

Lemma fits_float_ok (n : Z) :
  fits_float n = true -> exists y, float_of_int n = Ok y.
Proof.
  unfold fits_float. destruct (float_of_int n) as [y|e]; simpl.
  - intros _. now exists y.
  - discriminate.
Qed.

Lemma products_lines (items : list Item) (xs : list float) :
  products items xs <-> lines_of items = Ok xs.
Proof.
  split.
  - induction 1 as [|item x items xs (q & Hq & ->) _ IH]; simpl; [reflexivity|].
    unfold line_total, float_mul_int. rewrite Hq. simpl. rewrite IH. reflexivity.
  - revert xs. induction items as [|item items IH]; intros xs; simpl.
    + intros H. injection H as <-. constructor.
    + unfold line_total, float_mul_int.
      destruct (float_of_int (quantity item)) as [q|e] eqn:Hq; simpl; [|discriminate].
      destruct (lines_of items) as [ys|e]; simpl; [|discriminate].
      intros H. injection H as <-. constructor; [eauto | now apply IH].
Qed.

Lemma products_exist (items : list Item) :
  Forall (fun item => fits_float (quantity item) = true) items ->
  exists xs, products items xs.
Proof.
  induction 1 as [|item items Hfit _ (xs & IH)].
  - exists []. constructor.
  - destruct (fits_float_ok _ Hfit) as [q Hq].
    exists ((price item * q)%float :: xs). constructor; eauto.
Qed.

Lemma products_fit (items : list Item) (xs : list float) :
  products items xs ->
  Forall (fun item => fits_float (quantity item) = true) items.
Proof.
  induction 1 as [|item x items xs (q & Hq & _) _ IH]; constructor; [|exact IH].
  unfold fits_float. now rewrite Hq.
Qed.

Lemma products_app (items items' : list Item) (xs ys : list float) :
  products items xs -> products items' ys ->
  products (items ++ items') (xs ++ ys).
Proof. intros H H'. now apply Forall2_app. Qed.

Lemma sum_lines_products (items : list Item) (xs : list float) :
  products items xs -> sum_lines version items = Ok (builtin_sum version xs).
Proof.
  intros H. apply products_lines in H. unfold sum_lines. now rewrite H.
Qed.

Lemma plain_sum_fold (xs : list float) (acc : float) :
  plain_sum acc xs = fold_left PrimFloat.add xs acc.
Proof. revert acc. induction xs as [|x xs IH]; intros acc; simpl; auto. Qed.

Lemma compensated_sum_fold (xs : list float) (f_result c : float) :
  compensated_sum f_result c xs
  = (let '(f, c) :=
       fold_left
         (fun '(f, c) x =>
            let t := f + x in
            (t, if abs x <=? abs f then c + ((f - t) + x) else c + ((x - t) + f)))
         xs (f_result, c) in
     if (negb (c =? 0) && is_finite c)%bool then f + c else f)%float.
Proof.
  revert f_result c. induction xs as [|x xs IH]; intros f_result c; simpl.
  - reflexivity.
  - apply IH.
Qed.

Lemma builtin_sum_is_sum_of (xs : list float) : builtin_sum version xs = sum_of xs.
Proof.
  unfold builtin_sum, sum_of. destruct version.
  - apply plain_sum_fold.
  - destruct xs as [|x1 rest]; [reflexivity | apply compensated_sum_fold].
Qed.

Lemma Forall_without {A : Type} (P : A -> Prop) (l : list A) (n m : nat) :
  Forall P l -> Forall P (firstn n l ++ skipn m l)%list.
Proof.
  intros H. apply Forall_app. split.
  - rewrite <- (firstn_skipn n l) in H. apply Forall_app in H. tauto.
  - rewrite <- (firstn_skipn m l) in H. apply Forall_app in H. tauto.
Qed.

(** ** remove_item *)

Lemma in_range_nat (i : Z) (n : nat) :
  (i <? 1) || (i >? Z.of_nat n) = false <-> 1 <= i <= Z.of_nat n.
Proof.
  rewrite orb_false_iff, Z.ltb_ge, Z.gtb_ltb, Z.ltb_ge. tauto.
Qed.

(** Cutting position [i] (counted from 1) out of [before ++ removed :: after]. *)
Lemma cut_at {A : Type} (before after : list A) (removed : A) (i : Z) :
  Z.of_nat (List.length before) = i - 1 ->
  nth_error (before ++ removed :: after)%list (Z.to_nat (i - 1)) = Some removed /\
  (firstn (Z.to_nat (i - 1)) (before ++ removed :: after)
     ++ skipn (Z.to_nat i) (before ++ removed :: after))%list
  = (before ++ after)%list.
Proof.
  intros H.
  assert (E1 : Z.to_nat (i - 1) = List.length before) by lia.
  assert (E2 : Z.to_nat i = S (List.length before)) by lia.
  rewrite E1, E2. split.
  - rewrite nth_error_app2 by lia. now rewrite Nat.sub_diag.
  - rewrite firstn_app, firstn_all, Nat.sub_diag. cbn [firstn]. rewrite app_nil_r.
    f_equal. rewrite skipn_app, skipn_all2 by lia.
    replace (S (List.length before) - List.length before)%nat with 1%nat by lia.
    reflexivity.
Qed.

(** A position in range splits the list around it. *)
Lemma split_at {A : Type} (l : list A) (i : Z) :
  1 <= i <= Z.of_nat (List.length l) ->
  exists before removed after,
    l = (before ++ removed :: after)%list /\ Z.of_nat (List.length before) = i - 1.
Proof.
  intros H.
  destruct (nth_error l (Z.to_nat (i - 1))) as [x|] eqn:E.
  - apply nth_error_split in E. destruct E as (l1 & l2 & -> & Hlen).
    exists l1, x, l2. split; [reflexivity | lia].
  - apply nth_error_None in E. lia.
Qed.

(** The products of a list without one of its items. *)
Lemma products_without (before after : list Item) (removed : Item) :
  Forall (fun item => fits_float (quantity item) = true)
    (before ++ removed :: after)%list ->
  exists xs, products (before ++ after) xs.
Proof.
  intros H. apply products_exist. apply Forall_app in H. destruct H as [Hb Ha].
  apply Forall_app. split; [exact Hb | now inversion Ha].
Qed.

Lemma remove_item_in_range (runtime : ToolRuntime) (i : Z)
    (before after : list Item) (removed : Item) (xs : list float) :
  get (order_items (state runtime)) [] = (before ++ removed :: after)%list ->
  Z.of_nat (List.length before) = i - 1 ->
  products (before ++ after) xs ->
  remove_item version i runtime =
  Ok {| upd_messages :=
          [ToolMessage
             ("Removed: " ++ name removed ++ ". New total: $"
                ++ format_2f (builtin_sum version xs))
             (tool_call_id runtime)];
        upd_current_step := None;
        upd_order_items := Some (before ++ after)%list;
        upd_order_type := None;
        upd_delivery_address := None;
        upd_order_total := Some (builtin_sum version xs);
        upd_payment_confirmed := None |}.
Proof.
  intros Hitems Hlen Hxs. unfold remove_item. rewrite Hitems.
  assert (R : (i <? 1) || (i >? Z.of_nat (List.length (before ++ removed :: after))) = false).
  { apply in_range_nat. rewrite length_app. simpl. lia. }
  rewrite R. destruct (cut_at before after removed i Hlen) as [-> ->].
  rewrite (sum_lines_products _ _ Hxs). reflexivity.
Qed.

Lemma remove_item_out_of_range (runtime : ToolRuntime) (i : Z) :
  ~ 1 <= i <= Z.of_nat (List.length (get (order_items (state runtime)) [])) ->
  remove_item version i runtime =
  Ok (invalid_item_number (get (order_items (state runtime)) []) runtime).
Proof.
  intros H. unfold remove_item.
  destruct ((i <? 1) || (i >? Z.of_nat (List.length (get (order_items (state runtime)) []))))
    eqn:E; [reflexivity|].
  apply in_range_nat in E. contradiction.
Qed.


(** ** The running total *)

Lemma add_item_ok (item_name size : string) (quantity : Z) (extras : list string)
    (price : float) (runtime : ToolRuntime) (q : float) :
  float_of_int quantity = Ok q ->
  exists text,
    add_item item_name size quantity extras price runtime =
    Ok {| upd_messages := [ToolMessage text (tool_call_id runtime)];
          upd_current_step := None;
          upd_order_items :=
            Some (get (order_items (state runtime)) []
                    ++ [ {| name := item_name; size := size; quantity := quantity;
                            extras := extras; price := price |} ])%list;
          upd_order_type := None;
          upd_delivery_address := None;
          upd_order_total :=
            Some (get (order_total (state runtime)) 0 + price * q)%float;
          upd_payment_confirmed := None |}.
Proof.
  intros Hq. unfold add_item, float_mul_int. rewrite Hq. simpl. eauto.
Qed.

Lemma started_tracked (s : OrderState) (id : string) : tracked (started s id).
Proof.
  exists [], [], [], []. split; [reflexivity|].
  split; [constructor|]. split; [constructor|].
  unfold sum_of. simpl. destruct version; reflexivity.
Qed.

(** One edit keeps the total tracked: an addition adds its product to it, a
    removal takes [sum] of the products that remain. *)
Lemma edit_keeps_tracked (call : ToolCall) (id : string) (s : OrderState) :
  tracked s -> edit_call call = true ->
  exists s', run call id s = Ok s' /\ tracked s'.
Proof.
  intros (kept & added & xs & ys & Hitems & Hxs & Hys & Htotal) Hcall.
  destruct call as [|item_name sz qty ext pr|item_index| | | | | | |];
    try discriminate; simpl in Hcall; unfold run, invoke.
  - (* add_item *)
    destruct (fits_float_ok _ Hcall) as [q Hq].
    destruct (add_item_ok item_name sz qty ext pr
                {| state := s; tool_call_id := id |} q Hq) as [text ->].
    simpl. eexists. split; [reflexivity|].
    rewrite Hitems, Htotal. simpl.
    exists kept,
      (added ++ [ {| name := item_name; size := sz; quantity := qty;
                     extras := ext; price := pr |} ])%list,
      xs, (ys ++ [(pr * q)%float])%list.
    split; [now rewrite app_assoc|]. split; [exact Hxs|]. split.
    + apply products_app; [exact Hys|]. constructor; [|constructor].
      exists q. split; [exact Hq | reflexivity].
    + now rewrite fold_left_app.
  - (* remove_item *)
    assert (Hfits : Forall (fun item => fits_float (quantity item) = true)
                      (kept ++ added)%list).
    { apply Forall_app. split; eapply products_fit; eauto. }
    destruct (Z_le_dec 1 item_index) as [Hlo|Hlo];
      [destruct (Z_le_dec item_index (Z.of_nat (List.length (kept ++ added))))
         as [Hhi|Hhi]|].
    + destruct (split_at (kept ++ added)%list item_index (conj Hlo Hhi))
        as (before & removed & after & E & Hlen).
      rewrite E in Hfits. destruct (products_without _ _ _ Hfits) as [zs Hzs].
      rewrite (remove_item_in_range {| state := s; tool_call_id := id |}
                 item_index before after removed zs).
      * simpl. eexists. split; [reflexivity|].
        exists (before ++ after)%list, [], zs, []. simpl.
        rewrite app_nil_r, builtin_sum_is_sum_of.
        repeat split; [exact Hzs | constructor].
      * simpl. rewrite Hitems. exact E.
      * exact Hlen.
      * exact Hzs.
    + rewrite remove_item_out_of_range by (simpl; rewrite Hitems; simpl; lia).
      simpl. eexists. split; [reflexivity|]. exists kept, added, xs, ys.
      now repeat split.
    + rewrite remove_item_out_of_range by (simpl; rewrite Hitems; simpl; lia).
      simpl. eexists. split; [reflexivity|]. exists kept, added, xs, ys.
      now repeat split.
Qed.




(** ** The tools and the current step *)

Lemma float_of_int_raises (n : Z) (e : exn) :
  float_of_int n = Raise e -> e = OverflowError.
Proof.
  unfold float_of_int. destruct (binary_normalize prec emax n 0 false); congruence.
Qed.

Lemma line_total_raises (item : Item) (e : exn) :
  line_total item = Raise e -> e = OverflowError.
Proof.
  unfold line_total, float_mul_int.
  destruct (float_of_int (quantity item)) eqn:E; simpl; [discriminate|].
  intros H. injection H as <-. eapply float_of_int_raises; eauto.
Qed.

Lemma lines_of_raises (items : list Item) (e : exn) :
  lines_of items = Raise e -> e = OverflowError.
Proof.
  induction items as [|i items IH]; simpl.
  - discriminate.
  - destruct (line_total i) eqn:E; simpl.
    + destruct (lines_of items); simpl; [discriminate|].
      intros H. injection H as <-. now apply IH.
    + intros H. injection H as <-. eapply line_total_raises; eauto.
Qed.

(** No tool raises anything but the OverflowError of an int too large for a
    float; [remove_item] never indexes out of the list. *)
Lemma invoke_raises (call : ToolCall) (runtime : ToolRuntime) (e : exn) :
  invoke call runtime = Raise e -> e = OverflowError.
Proof.
  destruct call as [|item_name sz qty ext pr|item_index| | | | | | |];
    simpl; try discriminate.
  - unfold add_item, float_mul_int.
    destruct (float_of_int qty) eqn:E; simpl; [discriminate|].
    intros H. injection H as <-. eapply float_of_int_raises; eauto.
  - unfold remove_item.
    destruct ((item_index <? 1)
              || (item_index >? Z.of_nat (List.length (get (order_items (state runtime)) []))))
      eqn:R; [discriminate|].
    apply in_range_nat in R.
    destruct (nth_error (get (order_items (state runtime)) []) (Z.to_nat (item_index - 1)))
      eqn:N.
    + unfold sum_lines.
      match goal with |- context [lines_of ?l] => destruct (lines_of l) eqn:S end;
        simpl; [discriminate|].
      intros H. injection H as <-. eapply lines_of_raises; eauto.
    + apply nth_error_None in N. lia.
Qed.

(** C1, as the code has it. No tool looks at [current_step]: on every state a
    call returns the same update whatever the step is, it never fails for the
    step (the only exception a tool raises is the OverflowError of a quantity
    too large for a float), [confirm_order] moves to payment from any state,
    with or without items, and [add_item] appends its item at any step. *)
Theorem tools_do_not_check_the_step :
  forall (call : ToolCall) (s : OrderState) (id : string) (step : option OrderStep),
    invoke call {| state := at_step step s; tool_call_id := id |}
      = invoke call {| state := s; tool_call_id := id |} /\
    (forall e, invoke call {| state := s; tool_call_id := id |} = Raise e ->
               e = OverflowError) /\
    (exists s', run call_confirm_order id s = Ok s' /\
                current_step s' = Some Step.payment /\
                order_items s' = order_items s) /\
    (forall (item_name size : string) (quantity : Z) (extras : list string)
            (price q : float),
        float_of_int quantity = Ok q ->
        exists s',
          run (call_add_item item_name size quantity extras price) id s = Ok s' /\
          order_items s'
            = Some (get (order_items s) []
                      ++ [ {| name := item_name; size := size; quantity := quantity;
                              extras := extras; price := price |} ])%list /\
          current_step s' = current_step s).
Proof.
  intros call s id step. split; [|split; [|split]].
  - destruct call; reflexivity.
  - intros e. apply invoke_raises.
  - eexists. split; [reflexivity|]. split; reflexivity.
  - intros item_name sz qty ext pr q Hq. unfold run, invoke.
    destruct (add_item_ok item_name sz qty ext pr
                {| state := s; tool_call_id := id |} q Hq) as [text ->].
    eexists. split; [reflexivity|]. split; reflexivity.
Qed.

(** ** add_item *)

(** C8, as the code has it. [add_item] does not look at the sign of the
    quantity: for every quantity that converts to float, zero and negative
    ones too, it appends the item and sets [order_total] to the old total plus
    price times quantity. *)
Theorem add_item_any_quantity :
  forall (item_name size : string) (quantity : Z) (extras : list string)
         (price : float) (runtime : ToolRuntime) (q : float),
    float_of_int quantity = Ok q ->
    exists c,
      add_item item_name size quantity extras price runtime = Ok c /\
      order_items (apply_update (state runtime) c)
        = Some (get (order_items (state runtime)) []
                  ++ [ {| name := item_name; size := size; quantity := quantity;
                          extras := extras; price := price |} ])%list /\
      order_total (apply_update (state runtime) c)
        = Some (get (order_total (state runtime)) 0 + price * q)%float.
Proof.
  intros item_name sz qty ext pr runtime q Hq.
  destruct (add_item_ok item_name sz qty ext pr runtime q Hq) as [text ->].
  eexists. split; [reflexivity|]. split; reflexivity.
Qed.

Lemma add_item_any_quantity_witness :
  float_of_int (-2) = Ok (-2)%float /\
  exists c,
    add_item "Coke" "large" (-2) [] 3%float (two_items_at Step.order_collection None None)
      = Ok c /\
    order_items (apply_update (state (two_items_at Step.order_collection None None)) c)
      = Some (two_items
                ++ [ {| name := "Coke"; size := "large"; quantity := -2;
                        extras := []; price := 3%float |} ])%list /\
    order_total (apply_update (state (two_items_at Step.order_collection None None)) c)
      = Some (15.25 + 3 * -2)%float.
Proof.
  split.
  - vm_compute. reflexivity.
  - apply (add_item_any_quantity "Coke" "large" (-2) [] 3%float
             (two_items_at Step.order_collection None None) (-2)%float).
    vm_compute. reflexivity.
Defined.

(** ** Pickup or delivery *)

(** C5. At step order_type, [set_order_type] with pickup records pickup and
    moves to order_summary, with delivery it records delivery and moves to
    delivery_address; neither ends at the other's step. *)
Theorem set_order_type_destination :
  forall (runtime : ToolRuntime),
    current_step (state runtime) = Some Step.order_type ->
    let after type := apply_update (state runtime) (set_order_type type runtime) in
    order_type (after pickup) = Some pickup /\
    current_step (after pickup) = Some Step.order_summary /\
    order_type (after delivery) = Some delivery /\
    current_step (after delivery) = Some Step.delivery_address /\
    current_step (after pickup) <> Some Step.delivery_address /\
    current_step (after delivery) <> Some Step.order_summary.
Proof.
  intros runtime _ after. unfold after. simpl.
  repeat split; discriminate.
Qed.

Lemma set_order_type_destination_witness :
  current_step (state (two_items_at Step.order_type None None)) = Some Step.order_type /\
  current_step
    (apply_update (state (two_items_at Step.order_type None None))
       (set_order_type pickup (two_items_at Step.order_type None None)))
    = Some Step.order_summary /\
  current_step
    (apply_update (state (two_items_at Step.order_type None None))
       (set_order_type delivery (two_items_at Step.order_type None None)))
    = Some Step.delivery_address.
Proof.
  split; [reflexivity|].
  destruct (set_order_type_destination (two_items_at Step.order_type None None) eq_refl)
    as (_ & Hp & _ & Hd & _).
  split; [exact Hp | exact Hd].
Defined.

(** ** Going back from payment *)

(** C6. At step payment, [go_back_to_order] sets the step to order_collection
    and leaves the items, the total, the order type, the delivery address and
    the payment flag as they were: a flag already true stays true. *)
Theorem go_back_to_order_frame :
  forall (runtime : ToolRuntime),
    current_step (state runtime) = Some Step.payment ->
    let s := state runtime in
    let s' := apply_update s (go_back_to_order runtime) in
    current_step s' = Some Step.order_collection /\
    order_items s' = order_items s /\
    order_total s' = order_total s /\
    order_type s' = order_type s /\
    delivery_address s' = delivery_address s /\
    payment_confirmed s' = payment_confirmed s /\
    (payment_confirmed s = Some true -> payment_confirmed s' = Some true).
Proof.
  intros runtime _ s s'. unfold s', s. simpl. repeat split. auto.
Qed.

Lemma go_back_to_order_frame_witness :
  current_step (state (two_items_at Step.payment (Some pickup) (Some true)))
    = Some Step.payment /\
  current_step
    (apply_update (state (two_items_at Step.payment (Some pickup) (Some true)))
       (go_back_to_order (two_items_at Step.payment (Some pickup) (Some true))))
    = Some Step.order_collection /\
  payment_confirmed
    (apply_update (state (two_items_at Step.payment (Some pickup) (Some true)))
       (go_back_to_order (two_items_at Step.payment (Some pickup) (Some true))))
    = Some true.
Proof.
  split; [reflexivity|].
  destruct (go_back_to_order_frame
              (two_items_at Step.payment (Some pickup) (Some true)) eq_refl)
    as (Hstep & _ & _ & _ & _ & _ & Hflag).
  split; [exact Hstep | exact (Hflag eq_refl)].
Defined.

(** ** Payment *)

(** A float that compares equal to zero is one of the two zeros. *)
Lemma eqb_zero (z : float) :
  (z =? 0)%float = true -> z = 0%float \/ z = (-0)%float.
Proof.
  rewrite eqb_spec. intros H. rewrite <- (SF2Prim_Prim2SF z).
  destruct (Prim2SF z) as [[|]| [|] | | [|] m e]; try discriminate H.
  - right. reflexivity.
  - left. reflexivity.
Qed.

(** Two-decimal formatting rounds the exact binary value, ties to even. *)
Example format_2f_rounds :
  map format_2f [0.125; 2.675; 1.005; 0.005; -0.001; 12345.678; 9.25]%float
  = ["0.12"; "2.67"; "1.00"; "0.01"; "-0.00"; "12345.68"; "9.25"].
Proof. vm_compute. reflexivity. Qed.

(** The tax on 10.00 as a float: one unit in the last place above 0.85. *)
Example tax_on_ten :
  payment_amounts 10 = (0.85000000000000009, 10.85)%float /\
  fst (payment_amounts 10) = next_up 0.85%float.
Proof. split; vm_compute; reflexivity. Qed.

(** C3. At step payment, whatever the payment method, [process_payment]
    computes the tax as the total times 0.085 and the final total as the total
    plus that tax (binary64 products and sums, shown in the message with two
    decimals: a total of 10.00 gives a tax of 0.85 and a final total of 10.85),
    sets [payment_confirmed] to true and leaves [current_step] at payment. *)
Theorem process_payment_adds_tax :
  forall (payment_method : string) (runtime : ToolRuntime),
    current_step (state runtime) = Some Step.payment ->
    let subtotal := get (order_total (state runtime)) 0%float in
    let tax := (subtotal * 0.085)%float in
    let final_total := (subtotal + tax)%float in
    let c := process_payment payment_method runtime in
    payment_amounts subtotal = (tax, final_total) /\
    upd_messages c
      = [ToolMessage
           ("Payment processed via " ++ payment_method ++ ". Subtotal: $"
              ++ format_2f subtotal ++ ", Tax: $" ++ format_2f tax
              ++ ", Total: $" ++ format_2f final_total
              ++ ". Order placed successfully!")
           (tool_call_id runtime)] /\
    payment_confirmed (apply_update (state runtime) c) = Some true /\
    current_step (apply_update (state runtime) c) = Some Step.payment /\
    format_2f (fst (payment_amounts 10)) = "0.85" /\
    format_2f (snd (payment_amounts 10)) = "10.85".
Proof.
  intros payment_method runtime Hstep subtotal tax final_total c.
  split; [reflexivity|]. split; [reflexivity|]. split; [reflexivity|].
  split; [simpl; exact Hstep|].
  split; vm_compute; reflexivity.
Qed.

Lemma process_payment_adds_tax_witness :
  current_step (state paying_ten) = Some Step.payment /\
  upd_messages (process_payment "credit card" paying_ten)
    = [ToolMessage
         "Payment processed via credit card. Subtotal: $10.00, Tax: $0.85, Total: $10.85. Order placed successfully!"
         "call_9"] /\
  payment_confirmed
    (apply_update (state paying_ten) (process_payment "credit card" paying_ten))
    = Some true /\
  current_step
    (apply_update (state paying_ten) (process_payment "credit card" paying_ten))
    = Some Step.payment.
Proof.
  split; [reflexivity|].
  destruct (process_payment_adds_tax "credit card" paying_ten eq_refl)
    as (_ & Hmsg & Hflag & Hstep & _).
  split; [|split; [exact Hflag | exact Hstep]].
  rewrite Hmsg. vm_compute. reflexivity.
Defined.

(** C10. When [order_total] is unset or equal to zero, [process_payment] does
    not fail: it takes the subtotal to be zero (0.0 when the key is unset),
    computes a tax and a final total equal to zero, and sets
    [payment_confirmed] to true; on an unset or 0.0 total its message shows
    0.00 three times. *)
Theorem process_payment_on_empty_order :
  forall (payment_method : string) (runtime : ToolRuntime),
    order_total (state runtime) = None \/
    (exists z, order_total (state runtime) = Some z /\ (z =? 0)%float = true) ->
    let subtotal := get (order_total (state runtime)) 0%float in
    let c := process_payment payment_method runtime in
    (order_total (state runtime) = None -> subtotal = 0%float) /\
    (subtotal =? 0)%float = true /\
    (fst (payment_amounts subtotal) =? 0)%float = true /\
    (snd (payment_amounts subtotal) =? 0)%float = true /\
    payment_confirmed (apply_update (state runtime) c) = Some true /\
    (subtotal = 0%float ->
     upd_messages c
       = [ToolMessage
            ("Payment processed via " ++ payment_method
               ++ ". Subtotal: $0.00, Tax: $0.00, Total: $0.00. Order placed successfully!")
            (tool_call_id runtime)]).
Proof.
  intros payment_method runtime H subtotal c.
  assert (Hz : subtotal = 0%float \/ subtotal = (-0)%float).
  { unfold subtotal. destruct H as [-> | (z & -> & Hz)]; simpl.
    - now left.
    - now apply eqb_zero. }
  split; [intros E; unfold subtotal; rewrite E; reflexivity|].
  split; [destruct Hz as [-> | ->]; vm_compute; reflexivity|].
  split; [destruct Hz as [-> | ->]; vm_compute; reflexivity|].
  split; [destruct Hz as [-> | ->]; vm_compute; reflexivity|].
  split; [reflexivity|].
  intros E. unfold c, process_payment. fold subtotal. rewrite E. reflexivity.
Qed.

Lemma process_payment_on_empty_order_witness :
  order_total (state greeting_runtime) = None /\
  payment_confirmed
    (apply_update (state greeting_runtime) (process_payment "cash" greeting_runtime))
    = Some true /\
  upd_messages (process_payment "cash" greeting_runtime)
    = [ToolMessage
         "Payment processed via cash. Subtotal: $0.00, Tax: $0.00, Total: $0.00. Order placed successfully!"
         "call_1"].
Proof.
  split; [reflexivity|].
  destruct (process_payment_on_empty_order "cash" greeting_runtime (or_introl eq_refl))
    as (_ & _ & _ & _ & Hflag & Hmsg).
  split; [exact Hflag | exact (Hmsg eq_refl)].
Defined.

(** ** The pickup scenario *)

(** C7, as the code has it. From the initial state the pickup scenario runs
    through; its final total is 9.25 + 9.25 * 0.085, the float nearest to
    10.03625, which the payment message shows as 10.04 (9.25 * 1.085 =
    10.03625 rounds to 1004 cents in exact arithmetic too); the payment is
    confirmed and the step is payment. *)
Theorem pickup_scenario_total :
  exists s,
    final_state pickup_scenario "call_1"
      (initial_state "Hi, I'd like to order some pizza") = Ok s /\
    order_total s = Some 9.25%float /\
    snd (payment_amounts 9.25) = 10.036250000000001%float /\
    format_2f (snd (payment_amounts 9.25)) = "10.04" /\
    round_half_even (925 * 1085) 1000 = 1004 /\
    last (messages s) (HumanMessage "")
      = ToolMessage
          "Payment processed via cash. Subtotal: $9.25, Tax: $0.79, Total: $10.04. Order placed successfully!"
          "call_1" /\
    payment_confirmed s = Some true /\
    current_step s = Some Step.payment.
Proof.
  eexists. split; [vm_compute; reflexivity|].
  repeat split; vm_compute; reflexivity.
Qed.

(** ** The step selector *)

Lemma format_is_fold (str_items : list Item -> string) (template : Template)
    (values : FormatValues) :
  format str_items template values
  = fold_right
      (fun piece rest =>
         (match piece with
          | Text text => text
          | Fill Hole.order_items => str_items (fv_order_items values)
          | Fill Hole.order_total_2f => format_2f (fv_order_total values)
          | Fill Hole.order_type => fv_order_type values
          | Fill Hole.delivery_address => fv_delivery_address values
          end) ++ rest)
      "" template.
Proof.
  induction template as [|[text|[| | |]] template IH]; simpl; now rewrite ?IH.
Qed.

(** C9. For every state, [apply_step_config] hands the handler a request
    whose tools are those of the [STEP_CONFIG] entry of the state's
    [current_step] (greeting when the key is unset) and whose system prompt
    is that entry's prompt, its texts as they are and each replacement field
    filled from the state: the items (none when unset), the total with two
    decimals (0.0 when unset), the order type ("not set" when unset) and the
    delivery address ("N/A" when unset); the state of the request is the
    state it received, unchanged. *)
Theorem step_selector_projects_step_config :
  forall (str_items : list Item -> string) (ModelResponse : Type)
         (request : ModelRequest.t) (handler : ModelRequest.t -> ModelResponse),
    let s := ModelRequest.state request in
    let entry := STEP_CONFIG (match current_step s with
                              | Some step => step
                              | None => Step.greeting
                              end) in
    let request' := step_request str_items request in
    apply_step_config str_items ModelResponse request handler = handler request' /\
    ModelRequest.tools request' = StepConfig.tools entry /\
    ModelRequest.system_prompt request'
      = Some
          (fold_right
             (fun piece rest =>
                (match piece with
                 | Text text => text
                 | Fill Hole.order_items =>
                     str_items (match order_items s with
                                | Some items => items
                                | None => []
                                end)
                 | Fill Hole.order_total_2f =>
                     format_2f (match order_total s with
                                | Some total => total
                                | None => 0%float
                                end)
                 | Fill Hole.order_type =>
                     match order_type s with
                     | Some pickup => "pickup"
                     | Some delivery => "delivery"
                     | None => "not set"
                     end
                 | Fill Hole.delivery_address =>
                     match delivery_address s with
                     | Some address => address
                     | None => "N/A"
                     end
                 end) ++ rest)
             "" (StepConfig.prompt entry)) /\
    ModelRequest.state request' = s.
Proof.
  intros str_items ModelResponse request handler s entry request'.
  split; [reflexivity|]. split; [reflexivity|]. split; [|reflexivity].
  unfold request', step_request, ModelRequest.override. simpl.
  rewrite format_is_fold. simpl. f_equal.
  unfold entry, s, get.
  destruct (order_type (ModelRequest.state request)) as [[|]|]; reflexivity.
Qed.

(** The tools offered at each step. *)
Lemma offered_tools (str_items : list Item -> string) (request : ModelRequest.t) :
  ModelRequest.tools (step_request str_items request)
  = match get (current_step (ModelRequest.state request)) Step.greeting with
    | Step.greeting => [Tool.start_order]
    | Step.order_collection =>
        [Tool.add_item; Tool.remove_item; Tool.finish_order_collection]
    | Step.order_type => [Tool.set_order_type; Tool.go_back_to_order]
    | Step.delivery_address => [Tool.set_delivery_address; Tool.go_back_to_order]
    | Step.order_summary => [Tool.confirm_order; Tool.add_more_items]
    | Step.payment => [Tool.process_payment; Tool.go_back_to_order]
    end.
Proof.
  unfold step_request. simpl.
  destruct (get (current_step (ModelRequest.state request)) Step.greeting);
    reflexivity.
Qed.

(** The replacement fields of each step's prompt. *)
Lemma prompt_fields (step : OrderStep) :
  holes (StepConfig.prompt (STEP_CONFIG step))
  = match step with
    | Step.greeting | Step.delivery_address => []
    | Step.order_collection | Step.order_type =>
        [Hole.order_items; Hole.order_total_2f]
    | Step.order_summary | Step.payment =>
        [Hole.order_items; Hole.order_total_2f; Hole.order_type;
         Hole.delivery_address]
    end.
Proof. destruct step; reflexivity. Qed.

(** A prompt is its texts with the values of its fields in between. *)
Lemma format_order_type_prompt (str_items : list Item -> string)
    (values : FormatValues) :
  exists text0 text1 text2,
    ORDER_TYPE_PROMPT = [Text text0; Fill Hole.order_items; Text text1;
                         Fill Hole.order_total_2f; Text text2] /\
    format str_items ORDER_TYPE_PROMPT values
    = text0 ++ str_items (fv_order_items values) ++ text1
        ++ format_2f (fv_order_total values) ++ text2 ++ "".
Proof. do 3 eexists. split; reflexivity. Qed.

(** The prompt and the tools depend on the step, the items, the total, the
    order type and the delivery address only. *)
Lemma step_request_reads_five_keys (str_items : list Item -> string)
    (r1 r2 : ModelRequest.t) :
  current_step (ModelRequest.state r1) = current_step (ModelRequest.state r2) ->
  order_items (ModelRequest.state r1) = order_items (ModelRequest.state r2) ->
  order_total (ModelRequest.state r1) = order_total (ModelRequest.state r2) ->
  order_type (ModelRequest.state r1) = order_type (ModelRequest.state r2) ->
  delivery_address (ModelRequest.state r1) = delivery_address (ModelRequest.state r2) ->
  ModelRequest.system_prompt (step_request str_items r1)
    = ModelRequest.system_prompt (step_request str_items r2) /\
  ModelRequest.tools (step_request str_items r1)
    = ModelRequest.tools (step_request str_items r2).
Proof.
  intros H1 H2 H3 H4 H5. unfold step_request, ModelRequest.override. simpl.
  rewrite H1, H2, H3, H4, H5. split; reflexivity.
Qed.

(** * Further properties of the module *)

(** ** merge_order_items *)

(** X1. [merge_order_items] puts the items of the left update before those of
    the right one, a missing list counting as an empty one: a missing or empty
    operand changes nothing, and merging three updates gives the same list
    whichever two are merged first. *)
Theorem merge_order_items_concat :
  forall (left middle right : option (list Item)),
    merge_order_items left right = (get left [] ++ get right [])%list /\
    merge_order_items None right = get right [] /\
    merge_order_items left None = get left [] /\
    merge_order_items (Some (merge_order_items left middle)) right
      = merge_order_items left (Some (merge_order_items middle right)) /\
    List.length (merge_order_items left right)
      = (List.length (get left []) + List.length (get right []))%nat.
Proof.
  assert (E : forall x : option (list Item), or_empty x = get x []).
  { intros [[|a l]|]; reflexivity. }
  intros left middle right. unfold merge_order_items. rewrite !E. simpl.
  rewrite app_nil_r, app_assoc, length_app. repeat split.
Qed.

(** ** What a tool call changes *)

(** The shape of every update: one tool message carrying the call's id, and
    only the keys of the called tool. *)
Lemma invoke_shape (call : ToolCall) (runtime : ToolRuntime) (c : Command) :
  invoke call runtime = Ok c ->
  (exists text, upd_messages c = [ToolMessage text (tool_call_id runtime)]) /\
  (~ In (tool_of call) [Tool.start_order; Tool.add_item; Tool.remove_item] ->
   upd_order_items c = None /\ upd_order_total c = None) /\
  (tool_of call <> Tool.set_order_type -> upd_order_type c = None) /\
  (tool_of call <> Tool.set_delivery_address -> upd_delivery_address c = None) /\
  (upd_payment_confirmed c = None \/
   (upd_payment_confirmed c = Some true /\ tool_of call = Tool.process_payment)) /\
  (In (tool_of call) [Tool.add_item; Tool.remove_item; Tool.process_payment] ->
   upd_current_step c = None).
Proof.
  destruct call as [|item_name sz qty ext pr|item_index| | | | | | |]; simpl.
  3: { unfold remove_item.
       destruct ((item_index <? 1) || _);
         [|destruct (nth_error _ _); [destruct (sum_lines _)|]]; simpl;
         intros H; try discriminate H; injection H as <-; simpl;
         (split; [eauto|]); repeat split; try tauto; try congruence. }
  2: { unfold add_item. destruct (float_mul_int pr qty); simpl;
         intros H; try discriminate H; injection H as <-; simpl;
         (split; [eauto|]); repeat split; try tauto; try congruence. }
  all: intros H; injection H as <-; simpl; (split; [eauto|]);
    repeat split; try tauto; try congruence;
    try (intros [E|[E|[E|[]]]]; discriminate E).
Qed.

(** X2. A tool call changes only the keys of its tool: [order_items] and
    [order_total] stay as they are under every tool but start_order, add_item
    and remove_item, [order_type] under every tool but set_order_type,
    [delivery_address] under every tool but set_delivery_address,
    [payment_confirmed] under every tool but process_payment; and add_item,
    remove_item and process_payment leave [current_step] as it is. *)
Theorem tools_touch_only_their_keys :
  forall (call : ToolCall) (id : string) (s s' : OrderState),
    run call id s = Ok s' ->
    (~ In (tool_of call) [Tool.start_order; Tool.add_item; Tool.remove_item] ->
     order_items s' = order_items s /\ order_total s' = order_total s) /\
    (tool_of call <> Tool.set_order_type -> order_type s' = order_type s) /\
    (tool_of call <> Tool.set_delivery_address ->
     delivery_address s' = delivery_address s) /\
    (tool_of call <> Tool.process_payment ->
     payment_confirmed s' = payment_confirmed s) /\
    (In (tool_of call) [Tool.add_item; Tool.remove_item; Tool.process_payment] ->
     current_step s' = current_step s).
Proof.
  intros call id s s'. unfold run.
  destruct (invoke call {| state := s; tool_call_id := id |}) as [c|e] eqn:E;
    simpl; [|discriminate].
  intros H. injection H as <-.
  destruct (invoke_shape _ _ _ E) as (_ & Hitems & Htype & Haddr & Hpay & Hstep).
  simpl. split; [|split; [|split; [|split]]].
  - intros H. destruct (Hitems H) as [-> ->]. split; reflexivity.
  - intros H. now rewrite (Htype H).
  - intros H. now rewrite (Haddr H).
  - intros H. destruct Hpay as [->|[_ Hp]]; [reflexivity | contradiction].
  - intros H. now rewrite (Hstep H).
Qed.

(** X3. No tool resets the payment flag: through any sequence of tool calls,
    offered or not, a [payment_confirmed] that is true stays true after every
    call. *)
Theorem payment_confirmed_is_never_reset :
  forall (calls : list ToolCall) (id : string) (s : OrderState)
         (trace : list OrderState),
    payment_confirmed s = Some true ->
    run_calls calls id s = Ok trace ->
    Forall (fun s' => payment_confirmed s' = Some true) trace.
Proof.
  induction calls as [|call calls IH]; intros id s trace Hs; cbn [run_calls].
  - intros H. injection H as <-. constructor.
  - destruct (run call id s) as [s1|e] eqn:E1; cbn [bind]; [|discriminate].
    destruct (run_calls calls id s1) as [tr|e] eqn:E2; cbn [bind]; [|discriminate].
    intros H. injection H as <-.
    assert (H1 : payment_confirmed s1 = Some true).
    { unfold run in E1.
      destruct (invoke call {| state := s; tool_call_id := id |}) as [c|e] eqn:E;
        simpl in E1; [|discriminate].
      injection E1 as <-. simpl.
      destruct (invoke_shape _ _ _ E) as (_ & _ & _ & _ & [-> | [-> _]] & _);
        simpl; [exact Hs | reflexivity]. }
    constructor; [exact H1 | eapply IH; eauto].
Qed.

(** ** The message history *)

Lemma run_appends_one_message (call : ToolCall) (id : string) (s s' : OrderState) :
  run call id s = Ok s' ->
  exists text, messages s' = (messages s ++ [ToolMessage text id])%list.
Proof.
  unfold run.
  destruct (invoke call {| state := s; tool_call_id := id |}) as [c|e] eqn:E;
    simpl; [|discriminate].
  intros H. injection H as <-.
  destruct (invoke_shape _ _ _ E) as ((text & Hm) & _).
  exists text. simpl. now rewrite Hm.
Qed.

Lemma last_cons {A : Type} (l : list A) (a d : A) : last (a :: l) d = last l a.
Proof.
  revert a d. induction l as [|x l IH]; intros a d; [reflexivity|].
  change (last (a :: x :: l) d) with (last (x :: l) d). now rewrite !IH.
Qed.

(** X4. Tool calls only add to the history: a sequence of calls that runs
    through leaves the messages that were there, in place, followed by one
    tool message per call, each carrying the call id. *)
Theorem tool_calls_append_their_messages :
  forall (calls : list ToolCall) (id : string) (s s' : OrderState),
    final_state calls id s = Ok s' ->
    exists texts,
      List.length texts = List.length calls /\
      messages s' = (messages s ++ map (fun text => ToolMessage text id) texts)%list.
Proof.
  unfold final_state.
  induction calls as [|call calls IH]; intros id s s'; cbn [run_calls bind].
  - intros H. injection H as <-. exists []. split; [reflexivity|].
    simpl. now rewrite app_nil_r.
  - destruct (run call id s) as [s1|e] eqn:E1; cbn [bind]; [|discriminate].
    destruct (run_calls calls id s1) as [tr|e] eqn:E2; cbn [bind]; [|discriminate].
    intros H. injection H as <-.
    destruct (run_appends_one_message _ _ _ _ E1) as [text Ht].
    destruct (IH id s1 (last tr s1)) as (texts & Hlen & Hm).
    { rewrite E2. reflexivity. }
    exists (text :: texts). split; [simpl; now rewrite Hlen|].
    change (messages (last (s1 :: tr) s)
            = (messages s ++ map (fun t => ToolMessage t id) (text :: texts))%list).
    rewrite last_cons, Hm, Ht, <- app_assoc. reflexivity.
Qed.

(** ** Positions in the item list *)


(** X6. After [remove_item] at a position in range the list is one shorter,
    the items before the position are where they were, and every later item
    has moved one position down (the quantities being ones that convert to
    float). *)
Theorem remove_item_shifts_positions :
  forall (runtime : ToolRuntime) (item_index : Z) (items : list Item),
    order_items (state runtime) = Some items ->
    Forall (fun item => fits_float (quantity item) = true) items ->
    1 <= item_index <= Z.of_nat (List.length items) ->
    exists c items',
      remove_item version item_index runtime = Ok c /\
      upd_order_items c = Some items' /\
      S (List.length items') = List.length items /\
      forall k : nat,
        nth_error items' k
        = nth_error items (if (Z.of_nat k <? item_index - 1) then k else S k).
Proof.
  intros runtime i items Hitems Hfits Hi.
  destruct (split_at items i Hi) as (before & removed & after & E & Hlen).
  assert (Hrest : exists xs, products (before ++ after) xs).
  { rewrite E in Hfits. now apply products_without in Hfits. }
  destruct Hrest as [xs Hxs].
  eexists. exists (before ++ after)%list.
  split; [apply (remove_item_in_range runtime i before after removed xs);
          [rewrite Hitems; exact E | exact Hlen | exact Hxs]|].
  split; [reflexivity|]. rewrite E. split.
  - rewrite !length_app. simpl. lia.
  - intros k. destruct (Z.of_nat k <? i - 1) eqn:K.
    + apply Z.ltb_lt in K. rewrite !nth_error_app1 by lia. reflexivity.
    + apply Z.ltb_ge in K. rewrite !nth_error_app2 by lia.
      replace (S k - List.length before)%nat with (S (k - List.length before)) by lia.
      reflexivity.
Qed.

(** ** The workflow under the step selector *)

Lemma run_offered_inv (call : ToolCall) (id : string) (s s' : OrderState) :
  run_offered call id s = Some s' ->
  In (tool_of call) (StepConfig.tools (STEP_CONFIG (step_of s))) /\
  run call id s = Ok s'.
Proof.
  unfold run_offered, offered.
  destruct (in_dec tool_eq_dec (tool_of call) _) as [Hin|]; [|discriminate].
  destruct (run call id s); [|discriminate].
  intros H. injection H as <-. split; [exact Hin | reflexivity].
Qed.

Lemma run_add_item_fits (item_name size : string) (quantity : Z)
    (extras : list string) (price : float) (id : string) (s s' : OrderState) :
  run (call_add_item item_name size quantity extras price) id s = Ok s' ->
  fits_float quantity = true.
Proof.
  unfold run, invoke, add_item, float_mul_int, fits_float.
  destruct (float_of_int quantity); simpl; [reflexivity | discriminate].
Qed.

(** An edit on a tracked state: the state it gives is tracked, and the
    keys other than the items, the total and the messages are untouched. *)
Lemma run_edit (call : ToolCall) (id : string) (s s' : OrderState) :
  tool_of call = Tool.add_item \/ tool_of call = Tool.remove_item ->
  tracked s ->
  run call id s = Ok s' ->
  tracked s' /\ current_step s' = current_step s /\
  order_type s' = order_type s /\ delivery_address s' = delivery_address s /\
  payment_confirmed s' = payment_confirmed s.
Proof.
  intros Htool Hs Hrun.
  assert (Hedit : edit_call call = true).
  { destruct call; destruct Htool as [E|E]; try discriminate E; simpl.
    - eapply run_add_item_fits; eauto.
    - reflexivity. }
  destruct (edit_keeps_tracked call id s Hs Hedit) as (s'' & Hrun' & Hs'').
  rewrite Hrun in Hrun'. injection Hrun' as <-.
  split; [exact Hs''|].
  unfold run in Hrun.
  destruct (invoke call {| state := s; tool_call_id := id |}) as [c|e] eqn:E;
    simpl in Hrun; [|discriminate].
  injection Hrun as <-.
  destruct (invoke_shape _ _ _ E) as (_ & _ & Htype & Haddr & Hpay & Hstep).
  simpl. rewrite Hstep, Htype, Haddr.
  - destruct Hpay as [->|[_ Hp]]; [repeat split|].
    destruct Htool as [T|T]; rewrite T in Hp; discriminate Hp.
  - destruct Htool as [T|T]; rewrite T; discriminate.
  - destruct Htool as [T|T]; rewrite T; discriminate.
  - destruct Htool as [T|T]; rewrite T; simpl; tauto.
Qed.

Lemma workflow_invariant_initial (first_message : string) :
  workflow_invariant (initial_state first_message).
Proof.
  split; [|split].
  - intros _. repeat split.
  - intros step H. discriminate H.
  - left. reflexivity.
Qed.

Lemma workflow_invariant_messages (msgs : list Message) (s : OrderState) :
  workflow_invariant s -> workflow_invariant (with_messages msgs s).
Proof. intros H. exact H. Qed.

Ltac not_offered H := exfalso; simpl in H; intuition discriminate.

Lemma workflow_invariant_call (call : ToolCall) (id : string) (s s' : OrderState) :
  workflow_invariant s -> run_offered call id s = Some s' -> workflow_invariant s'.
Proof.
  intros (Hnone & Hsome & Hpay) H.
  destruct (run_offered_inv _ _ _ _ H) as [Hin Hrun]. clear H.
  unfold step_of in Hin.
  destruct (current_step s) as [step|] eqn:Hstep.
  - destruct (Hsome step eq_refl) as (Hng & Hcons & Hdel & Hsum). clear Hnone Hsome.
    destruct step; [congruence| | | | | ]; simpl in Hin.
    + (* order_collection *)
      destruct call; try (not_offered Hin).
      * pose proof (fun T => run_edit _ _ _ _ T Hcons Hrun) as HE.
        destruct (HE (or_introl eq_refl)) as (Hc & E1 & E2 & E3 & E4).
        split; [|split].
        -- rewrite E1, Hstep. discriminate.
        -- intros step. rewrite E1, Hstep. intros X. injection X as <-.
           split; [discriminate|]. split; [exact Hc|].
           split; [discriminate|]. intros [X|X]; discriminate X.
        -- rewrite E4, E2. exact Hpay.
      * pose proof (fun T => run_edit _ _ _ _ T Hcons Hrun) as HE.
        destruct (HE (or_intror eq_refl)) as (Hc & E1 & E2 & E3 & E4).
        split; [|split].
        -- rewrite E1, Hstep. discriminate.
        -- intros step. rewrite E1, Hstep. intros X. injection X as <-.
           split; [discriminate|]. split; [exact Hc|].
           split; [discriminate|]. intros [X|X]; discriminate X.
        -- rewrite E4, E2. exact Hpay.
      * injection Hrun as <-. split; [|split].
        -- discriminate.
        -- intros step X. injection X as <-.
           split; [discriminate|]. split; [exact Hcons|].
           split; [discriminate|]. intros [X|X]; discriminate X.
        -- exact Hpay.
    + (* order_type *)
      destruct call; try (not_offered Hin); injection Hrun as <-.
      * split; [|split].
        -- discriminate.
        -- intros step X. destruct order_type0; injection X as <-;
             (split; [discriminate|]); (split; [exact Hcons|]);
             (split; [try reflexivity; discriminate|]);
             intros [X|X]; try discriminate X.
           split; [discriminate|]. discriminate.
        -- destruct Hpay as [Hp|[Hp _]]; [left; exact Hp|].
           right. split; [exact Hp | discriminate].
      * split; [|split].
        -- discriminate.
        -- intros step X. injection X as <-.
           split; [discriminate|]. split; [exact Hcons|].
           split; [discriminate|]. intros [X|X]; discriminate X.
        -- exact Hpay.
    + (* delivery_address *)
      destruct call; try (not_offered Hin); injection Hrun as <-.
      * split; [|split].
        -- discriminate.
        -- intros step X. injection X as <-.
           split; [discriminate|]. split; [exact Hcons|].
           split; [discriminate|]. intros _. simpl.
           rewrite (Hdel eq_refl). split; discriminate.
        -- exact Hpay.
      * split; [|split].
        -- discriminate.
        -- intros step X. injection X as <-.
           split; [discriminate|]. split; [exact Hcons|].
           split; [discriminate|]. intros [X|X]; discriminate X.
        -- exact Hpay.
    + (* order_summary *)
      destruct call; try (not_offered Hin); injection Hrun as <-.
      * split; [|split].
        -- discriminate.
        -- intros step X. injection X as <-.
           split; [discriminate|]. split; [exact Hcons|].
           split; [discriminate|]. intros _. apply Hsum. now left.
        -- exact Hpay.
      * split; [|split].
        -- discriminate.
        -- intros step X. injection X as <-.
           split; [discriminate|]. split; [exact Hcons|].
           split; [discriminate|]. intros [X|X]; discriminate X.
        -- exact Hpay.
    + (* payment *)
      destruct call; try (not_offered Hin); injection Hrun as <-.
      * split; [|split].
        -- simpl. rewrite Hstep. discriminate.
        -- intros step. simpl. rewrite Hstep. intros X. injection X as <-.
           split; [discriminate|]. split; [exact Hcons|].
           split; [discriminate|]. intros _. apply Hsum. now right.
        -- right. split; [reflexivity|]. apply Hsum. now right.
      * split; [|split].
        -- discriminate.
        -- intros step X. injection X as <-.
           split; [discriminate|]. split; [exact Hcons|].
           split; [discriminate|]. intros [X|X]; discriminate X.
        -- exact Hpay.
  - (* nothing started: only start_order is offered *)
    destruct (Hnone eq_refl) as (H1 & H2 & H3 & H4 & H5). simpl in Hin.
    destruct call; try (not_offered Hin). injection Hrun as <-.
    split; [|split].
    + discriminate.
    + intros step X. injection X as <-.
      split; [discriminate|]. split; [apply started_tracked|].
      split; [discriminate|]. intros [X|X]; discriminate X.
    + left. simpl. exact H5.
Qed.

Lemma reachable_invariant (s : OrderState) : reachable s -> workflow_invariant s.
Proof.
  induction 1 as [msg | s s' call id _ IH Hrun | s msgs _ IH].
  - apply workflow_invariant_initial.
  - eapply workflow_invariant_call; eauto.
  - now apply workflow_invariant_messages.
Qed.

Lemma reachable_run (calls : list ToolCall) (id : string) (s s' : OrderState) :
  reachable s -> run_offered_calls calls id s = Some s' -> reachable s'.
Proof.
  revert s. induction calls as [|call calls IH]; intros s Hs; simpl.
  - intros H. injection H as <-. exact Hs.
  - destruct (run_offered call id s) as [s1|] eqn:E; [|discriminate].
    apply IH. eapply reach_call; eauto.
Qed.

(** X7. In a conversation start_order is offered only while no key of the
    order is set: once a tool has been called the step is never greeting
    again, so an order under way cannot be reset by start_order. *)
Theorem start_order_only_first :
  forall (s : OrderState),
    reachable s ->
    (current_step s <> None -> step_of s <> Step.greeting) /\
    (offered s call_start_order = true ->
     order_items s = None /\ order_total s = None /\ order_type s = None /\
     delivery_address s = None /\ payment_confirmed s = None).
Proof.
  intros s Hs. destruct (reachable_invariant s Hs) as (Hnone & Hsome & _).
  unfold offered, step_of.
  destruct (current_step s) as [step|] eqn:E.
  - destruct (Hsome step eq_refl) as (Hng & _). split; [intros _; exact Hng|].
    destruct step; simpl; try discriminate. congruence.
  - split; [congruence|]. intros _. apply Hnone. reflexivity.
Qed.


(** X9. The keys a step's configuration lists under "requires", which no code
    checks, are in the state whenever the conversation is at that step. *)
Theorem required_keys_are_present :
  forall (s : OrderState),
    reachable s ->
    Forall (fun key => has_key s key = true)
      (StepConfig.requires (STEP_CONFIG (step_of s))).
Proof.
  intros s Hs. destruct (reachable_invariant s Hs) as (_ & Hsome & _).
  unfold step_of. destruct (current_step s) as [step|] eqn:E; [|constructor].
  destruct (Hsome step eq_refl)
    as (_ & (kept & added & xs & ys & Hi & _) & Hdel & Hsum).
  unfold has_key.
  destruct step; simpl; repeat constructor; simpl.
  - now rewrite Hi.
  - now rewrite (Hdel eq_refl).
  - now rewrite Hi.
  - destruct (Hsum (or_introl eq_refl)) as [Ht _].
    destruct (order_type s); [reflexivity | congruence].
  - now rewrite Hi.
  - destruct (Hsum (or_intror eq_refl)) as [Ht _].
    destruct (order_type s); [reflexivity | congruence].
Qed.

(** X10. A delivery order never gets past the address step without an
    address: at step delivery_address the order type is delivery, and at the
    steps order_summary and payment the order type is set and, when it is
    delivery, so is the delivery address. *)
Theorem delivery_has_an_address :
  forall (s : OrderState),
    reachable s ->
    (current_step s = Some Step.delivery_address -> order_type s = Some delivery) /\
    (current_step s = Some Step.order_summary \/ current_step s = Some Step.payment ->
     order_type s <> None /\
     (order_type s = Some delivery -> delivery_address s <> None)).
Proof.
  intros s Hs. destruct (reachable_invariant s Hs) as (_ & Hsome & _). split.
  - intros E. destruct (Hsome _ E) as (_ & _ & Hdel & _). now apply Hdel.
  - intros [E|E]; destruct (Hsome _ E) as (_ & _ & _ & Hsum); apply Hsum; auto.
Qed.

(** X11. In a conversation the payment flag is either unset or true, never
    false; and when it is true an order type has been chosen. *)
Theorem payment_flag_in_conversation :
  forall (s : OrderState),
    reachable s ->
    payment_confirmed s <> Some false /\
    (payment_confirmed s = Some true -> order_type s <> None).
Proof.
  intros s Hs. destruct (reachable_invariant s Hs) as (_ & _ & [H|[H Ht]]).
  - rewrite H. split; discriminate.
  - rewrite H. split; [discriminate | intros _; exact Ht].
Qed.

Ltac in_list := solve [simpl; repeat (first [left; reflexivity | right])].

Lemma run_offered_edge (call : ToolCall) (id : string) (s s' : OrderState) :
  run_offered call id s = Some s' -> In (step_of s, step_of s') step_edges.
Proof.
  intros H. destruct (run_offered_inv _ _ _ _ H) as [Hin Hrun]. clear H.
  assert (Hkeep : In (tool_of call) [Tool.add_item; Tool.remove_item; Tool.process_payment] ->
                  step_of s' = step_of s).
  { intros T. unfold run in Hrun.
    destruct (invoke call {| state := s; tool_call_id := id |}) as [c|e] eqn:E;
      simpl in Hrun; [|discriminate].
    injection Hrun as <-.
    destruct (invoke_shape _ _ _ E) as (_ & _ & _ & _ & _ & Hstep).
    unfold step_of. simpl. now rewrite (Hstep T). }
  destruct (step_of s) eqn:St; simpl in Hin;
    destruct call; try (not_offered Hin);
    try (rewrite Hkeep by (simpl; tauto); in_list);
    injection Hrun as <-; unfold step_of; simpl; try in_list.
  destruct order_type0; in_list.
Qed.

(** X12. The steps of the workflow as the code runs it: one offered tool call
    leads from step [a] to step [b] exactly when [(a, b)] is one of the twelve
    pairs of [step_edges]; among them are the ways back to order_collection
    from order_type and from delivery_address, and there is none into
    greeting. *)
Theorem offered_calls_follow_the_edges :
  forall (a b : OrderStep),
    In (a, b) step_edges <->
    exists (s s' : OrderState) (call : ToolCall) (id : string),
      step_of s = a /\ step_of s' = b /\ run_offered call id s = Some s'.
Proof.
  intros a b. split.
  - intros H. simpl in H.
    assert (W : forall call : ToolCall,
               (exists s', run_offered call "" (at_step (Some a) (initial_state "")) = Some s'
                           /\ step_of s' = b) ->
               exists s s' call id,
                 step_of s = a /\ step_of s' = b /\ run_offered call id s = Some s').
    { intros call (s' & Hr & Hb).
      exists (at_step (Some a) (initial_state "")), s', call, "". auto. }
    repeat (destruct H as [H|H]; [injection H as <- <-|]); try contradiction.
    + apply (W call_start_order). eexists. split; vm_compute; reflexivity.
    + apply (W (call_remove_item 1)). eexists. split; vm_compute; reflexivity.
    + apply (W call_finish_order_collection). eexists. split; vm_compute; reflexivity.
    + apply (W (call_set_order_type delivery)). eexists. split; vm_compute; reflexivity.
    + apply (W (call_set_order_type pickup)). eexists. split; vm_compute; reflexivity.
    + apply (W call_go_back_to_order). eexists. split; vm_compute; reflexivity.
    + apply (W (call_set_delivery_address "")). eexists. split; vm_compute; reflexivity.
    + apply (W call_go_back_to_order). eexists. split; vm_compute; reflexivity.
    + apply (W call_confirm_order). eexists. split; vm_compute; reflexivity.
    + apply (W call_add_more_items). eexists. split; vm_compute; reflexivity.
    + apply (W (call_process_payment "")). eexists. split; vm_compute; reflexivity.
    + apply (W call_go_back_to_order). eexists. split; vm_compute; reflexivity.
  - intros (s & s' & call & id & <- & <- & H). eapply run_offered_edge; eauto.
Qed.

(** X13. From every state an order can be brought to its payment with
    offered calls only, four after start_order at most: the calls of
    [calls_to_payment] run through and end at step payment with the payment
    confirmed.  No tool on the way looks at the items: from greeting the order
    that is paid has no item and a total of zero. *)
Theorem order_can_always_be_completed :
  forall (s : OrderState) (id : string),
    exists s',
      run_offered_calls (calls_to_payment (step_of s)) id s = Some s' /\
      current_step s' = Some Step.payment /\
      payment_confirmed s' = Some true /\
      (step_of s = Step.greeting ->
       order_items s' = Some [] /\ order_total s' = Some 0%float) /\
      (step_of s <> Step.greeting ->
       order_items s' = order_items s /\ order_total s' = order_total s).
Proof.
  intros s id. unfold step_of.
  destruct (current_step s) as [[| | | | |]|] eqn:E;
    unfold run_offered_calls, run_offered, offered, step_of; simpl;
    rewrite ?E; simpl;
    (eexists; split; [reflexivity|]); simpl;
    repeat split; try reflexivity; try congruence; try exact E.
Qed.

(** ** The middleware, applied again *)

(** Configuring a request that is already configured changes nothing:
    the prompt and the tools are computed from the state, which the
    middleware leaves as it is. *)
Lemma step_request_idempotent :
  forall (str_items : list Item -> string) (request : ModelRequest.t),
    step_request str_items (step_request str_items request)
    = step_request str_items request.
Proof. intros str_items request. reflexivity. Qed.

(** X14. The tools the agent is created with are the tools the step
    configurations offer: every tool of [all_tools] is offered at some step,
    every offered tool is in [all_tools], and [all_tools] lists no tool twice. *)
Theorem all_tools_are_the_offered_tools :
  forall (tool : Tool.t),
    (In tool all_tools <->
     exists step, In tool (StepConfig.tools (STEP_CONFIG step))) /\
    NoDup all_tools.
Proof.
  intros tool. split.
  - split.
    + intros _. destruct tool;
        [ exists Step.greeting | exists Step.order_collection
        | exists Step.order_collection | exists Step.order_collection
        | exists Step.order_type | exists Step.delivery_address
        | exists Step.order_summary | exists Step.order_summary
        | exists Step.payment | exists Step.payment ]; simpl; tauto.
    + intros _. destruct tool; simpl; tauto.
  - unfold all_tools. repeat constructor; simpl; intuition discriminate.
Qed.

(** ** The reply the chat loop prints *)

Lemma first_reply_spec (msgs : list Message) (reply : string) :
  first_reply msgs = Some reply <->
  reply <> "" /\
  exists before after,
    msgs = (before ++ AIMessage reply :: after)%list /\
    Forall (fun m => forall content, m = AIMessage content -> content = "") before.
Proof.
  split.
  - induction msgs as [|m msgs IH]; simpl; [discriminate|].
    destruct m as [c|[|a c]|c i];
      try (intros H; destruct (IH H) as (Hne & before & after & -> & Hb);
           split; [exact Hne|];
           eexists (_ :: before), after; split; [reflexivity|];
           constructor; [|exact Hb]; intros content X;
           first [discriminate X | now injection X as <-]).
    intros H. injection H as <-. split; [discriminate|].
    exists [], msgs. split; [reflexivity | constructor].
  - intros (Hne & before & after & -> & Hb).
    induction Hb as [|m before Hm _ IH]; simpl.
    + destruct reply; [congruence | reflexivity].
    + destruct m as [c|[|a c]|c i]; try exact IH.
      specialize (Hm _ eq_refl). discriminate Hm.
Qed.

(** X15. What the chat loop prints after a turn is the content of the last
    AI message with a content that is not empty: the messages after it are
    human or tool messages, or AI messages with an empty content; and nothing
    is printed exactly when there is no such AI message. *)
Theorem printed_reply_is_the_last_ai_message :
  forall (messages : list Message) (reply : string),
    (printed_reply messages = Some reply <->
     reply <> "" /\
     exists before after,
       messages = (before ++ AIMessage reply :: after)%list /\
       Forall (fun m => forall content, m = AIMessage content -> content = "") after) /\
    (printed_reply messages = None <->
     Forall (fun m => forall content, m = AIMessage content -> content = "") messages).
Proof.
  intros messages reply. unfold printed_reply. split.
  - rewrite first_reply_spec. split.
    + intros (Hne & before & after & E & Hb). split; [exact Hne|].
      exists (rev after), (rev before). split.
      * rewrite <- (rev_involutive messages), E, rev_app_distr. simpl.
        now rewrite <- app_assoc.
      * apply Forall_rev. exact Hb.
    + intros (Hne & before & after & -> & Ha). split; [exact Hne|].
      exists (rev after), (rev before). split.
      * rewrite rev_app_distr. simpl. now rewrite <- app_assoc.
      * apply Forall_rev. exact Ha.
  - rewrite <- (rev_involutive messages) at 2.
    generalize (rev messages) as l. intros l. split.
    + intros H. apply Forall_rev.
      induction l as [|m l IH]; [constructor|]. simpl in H.
      destruct m as [c|[|a c]|c i]; try discriminate H;
        (constructor; [|exact (IH H)]); intros content X;
        first [discriminate X | now injection X as <-].
    + intros H. apply Forall_rev in H. rewrite rev_involutive in H.
      induction H as [|m l Hm _ IH]; [reflexivity|]. simpl.
      destruct m as [c|[|a c]|c i]; try exact IH.
      specialize (Hm _ eq_refl). discriminate Hm.
Qed.

Lemma run_keeps_printed_reply (call : ToolCall) (id : string) (s s' : OrderState) :
  run call id s = Ok s' ->
  printed_reply (messages s') = printed_reply (messages s).
Proof.
  intros H. destruct (run_appends_one_message _ _ _ _ H) as [text ->].
  unfold printed_reply. rewrite rev_app_distr. reflexivity.
Qed.

(** X16. The text of a tool's message is never what the loop prints: after
    any sequence of tool calls the printed reply is the one of the messages
    before the calls. *)
Theorem tool_calls_keep_the_printed_reply :
  forall (calls : list ToolCall) (id : string) (s s' : OrderState),
    final_state calls id s = Ok s' ->
    printed_reply (messages s') = printed_reply (messages s).
Proof.
  unfold final_state.
  induction calls as [|call calls IH]; intros id s s'; cbn [run_calls bind].
  - intros H. injection H as <-. reflexivity.
  - destruct (run call id s) as [s1|e] eqn:E1; cbn [bind]; [|discriminate].
    destruct (run_calls calls id s1) as [tr|e] eqn:E2; cbn [bind]; [|discriminate].
    intros H. injection H as <-.
    change (printed_reply (messages (last (s1 :: tr) s)) = printed_reply (messages s)).
    rewrite last_cons, (IH id s1 (last tr s1)) by (rewrite E2; reflexivity).
    eapply run_keeps_printed_reply; eauto.
Qed.

End Interpreter.

(** * The properties on orders at hand, under either [sum] *)

(** ** The builtin sum *)

(** Four menu prices on which the two algorithms differ in the last place. *)
Example builtin_sum_of_four_prices :
  builtin_sum plain [12.95; 9.75; 9.75; 12.95]%float = 45.400000000000006%float /\
  builtin_sum compensated [12.95; 9.75; 9.75; 12.95]%float = 45.4%float /\
  builtin_sum plain [0.1; 0.2; 0.3]%float = 0.60000000000000009%float /\
  builtin_sum compensated [0.1; 0.2; 0.3]%float = 0.6%float.
Proof. repeat split; vm_compute; reflexivity. Qed.

(** ** remove_item *)


Example remove_item_on_two_items :
  Forall
    (fun version =>
       option_map (fun c => (upd_messages c, upd_order_items c, upd_order_total c))
         (match remove_item version 1 collecting_two_items with
          | Ok c => Some c
          | Raise _ => None
          end)
       = Some ([ToolMessage "Removed: Cheese Pizza. New total: $6.00" "call_1"],
               Some (skipn 1 two_items), Some 6%float) /\
       remove_item version 5 collecting_two_items
       = Ok (invalid_item_number two_items collecting_two_items))
    [plain; compensated].
Proof. repeat constructor; vm_compute; reflexivity. Qed.

(** The total is summed again after a removal, not reduced by the removed
    line: on 0.1 + 0.2 + 0.3 the two differ in the last bit. *)
Example recomputed_not_subtracted :
  let line p := {| name := "x"; size := "small"; quantity := 1; extras := [];
                   price := p |} in
  let items := [line 0.1; line 0.2; line 0.3]%float in
  let runtime :=
    {| state :=
         {| messages := []; current_step := Some Step.order_collection;
            order_items := Some items; order_type := None;
            delivery_address := None;
            order_total := Some (0 + 0.1 + 0.2 + 0.3)%float;
            payment_confirmed := None |};
       tool_call_id := "call_1" |} in
  Forall
    (fun version =>
       (match remove_item version 1 runtime with
        | Ok c => upd_order_total c
        | Raise _ => None
        end) = Some 0.5%float)
    [plain; compensated] /\
  (0 + 0.1 + 0.2 + 0.3 - 0.1 <> 0.5)%float.
Proof.
  cbv zeta. split.
  - repeat constructor; vm_compute; reflexivity.
  - vm_compute. intros H.
    apply (f_equal Prim2SF) in H. vm_compute in H. discriminate H.
Qed.

(** ** The running total *)



Example edits_totals :
  (match run_calls plain drifting_edits "call_1"
           (started (state greeting_runtime) "call_1") with
   | Ok trace => map order_total trace
   | Raise _ => []
   end
   = [Some 12.95; Some 22.7; Some 32.45; Some 45.400000000000006;
      Some 46.400000000000006; Some 45.400000000000006]%float) /\
  (match run_calls compensated drifting_edits "call_1"
           (started (state greeting_runtime) "call_1") with
   | Ok trace => map order_total trace
   | Raise _ => []
   end
   = [Some 12.95; Some 22.7; Some 32.45; Some 45.400000000000006;
      Some 46.400000000000006; Some 45.4]%float).
Proof. split; vm_compute; reflexivity. Qed.

(** ** The tools and the current step *)

(** C1, refuted as stated: at step greeting, where only start_order is offered,
    add_item is carried out and appends its item; and confirm_order, at a step
    other than order_summary and with no item, moves to payment. *)
Lemma tools_run_outside_their_step :
  current_step (state greeting_runtime) = Some Step.greeting /\
  order_items (state greeting_runtime) = None /\
  StepConfig.tools (STEP_CONFIG Step.greeting) = [Tool.start_order] /\
  Forall
    (fun version =>
       (exists s',
          run version (call_add_item "Cheese Pizza" "medium" 1 [] 9.25%float) "call_1"
            (state greeting_runtime) = Ok s' /\
          order_items s'
            = Some [ {| name := "Cheese Pizza"; size := "medium"; quantity := 1;
                        extras := []; price := 9.25%float |} ] /\
          order_total s' = Some 9.25%float /\
          s' <> state greeting_runtime) /\
       (exists s',
          run version call_confirm_order "call_1" (state greeting_runtime) = Ok s' /\
          current_step s' = Some Step.payment /\
          s' <> state greeting_runtime))
    [plain; compensated].
Proof.
  split; [reflexivity|]. split; [reflexivity|]. split; [reflexivity|].
  repeat constructor;
    (eexists; split; [vm_compute; reflexivity|]);
    repeat (split; [reflexivity|]); discriminate.
Qed.

(** ** add_item *)

(** C8, refuted as stated: at step order_collection add_item with quantity 0
    is carried out and lengthens the item list, and with quantity -2 it is
    carried out and lowers the total. *)
Lemma add_item_accepts_zero_and_negative_quantity :
  current_step (state (two_items_at Step.order_collection None None))
    = Some Step.order_collection /\
  Forall
    (fun version =>
       (exists s',
          run version (call_add_item "Coke" "large" 0 [] 3%float) "call_7"
            (state (two_items_at Step.order_collection None None)) = Ok s' /\
          option_map (@List.length Item) (order_items s') = Some 3%nat /\
          order_items s'
            <> order_items (state (two_items_at Step.order_collection None None))) /\
       (exists s',
          run version (call_add_item "Coke" "large" (-2) [] 3%float) "call_7"
            (state (two_items_at Step.order_collection None None)) = Ok s' /\
          option_map (@List.length Item) (order_items s') = Some 3%nat /\
          order_total s' = Some 9.25%float /\
          order_total (state (two_items_at Step.order_collection None None))
            = Some 15.25%float))
    [plain; compensated].
Proof.
  split; [reflexivity|].
  repeat constructor;
    (eexists; split; [vm_compute; reflexivity|]);
    repeat (split; [reflexivity|]); try reflexivity; discriminate.
Qed.

(** ** The pickup scenario *)

(** C7, refuted as stated: in the pickup scenario the final total that
    [process_payment] computes, rounded to cents, is 10.04 and not 10.03. *)
Lemma pickup_scenario_total_is_not_10_03 :
  ~ (exists version s before,
       final_state version pickup_scenario "call_1"
         (initial_state "Hi, I'd like to order some pizza") = Ok s /\
       final_state version (removelast pickup_scenario) "call_1"
         (initial_state "Hi, I'd like to order some pizza") = Ok before /\
       format_2f (snd (payment_amounts (get (order_total before) 0%float))) = "10.03" /\
       payment_confirmed s = Some true /\
       current_step s = Some Step.payment).
Proof.
  intros (version & s & before & _ & Hbefore & Htotal & _).
  vm_compute in Hbefore. injection Hbefore as <-.
  vm_compute in Htotal. discriminate Htotal.
Qed.

(** ** The step selector *)

(** The prompt of the order summary for the 2-item pickup order. *)
Lemma step_selector_projects_step_config_witness :
  ModelRequest.system_prompt (step_request item_names summary_request)
  = Some "You are OrderBot 🍕, a friendly pizza ordering assistant.

CURRENT STEP: Order Summary & Final Check
CURRENT ORDER: Cheese Pizza, Coke
ORDER TOTAL: $15.25
ORDER TYPE: pickup
DELIVERY ADDRESS: N/A

At this step, you need to:
1. Summarize the complete order with all items and prices
2. Show the subtotal (tax will be added at payment)
3. Confirm the order type (pickup/delivery) and address if delivery
4. Ask if they'd like to add anything else
5. If they want to add more → use add_more_items
6. If order is complete → use confirm_order

Format the order summary nicely and make it easy to read!" /\
  ModelRequest.tools (step_request item_names summary_request)
  = [Tool.confirm_order; Tool.add_more_items] /\
  ModelRequest.state (step_request item_names summary_request)
  = ModelRequest.state summary_request.
Proof.
  destruct (step_selector_projects_step_config item_names unit summary_request
              (fun _ => tt)) as (_ & Htools & Hprompt & Hstate).
  split; [|split; [exact Htools | exact Hstate]].
  rewrite Hprompt. vm_compute. reflexivity.
Defined.

(** ** What a tool call changes *)

Lemma tools_touch_only_their_keys_witness :
  run plain call_add_more_items "call_7"
    (state (two_items_at Step.order_summary (Some pickup) None))
  = Ok (apply_update (state (two_items_at Step.order_summary (Some pickup) None))
          (add_more_items (two_items_at Step.order_summary (Some pickup) None))) /\
  order_items
    (apply_update (state (two_items_at Step.order_summary (Some pickup) None))
       (add_more_items (two_items_at Step.order_summary (Some pickup) None)))
  = Some two_items /\
  order_total
    (apply_update (state (two_items_at Step.order_summary (Some pickup) None))
       (add_more_items (two_items_at Step.order_summary (Some pickup) None)))
  = Some 15.25%float.
Proof.
  split; [reflexivity|].
  destruct (tools_touch_only_their_keys plain call_add_more_items "call_7"
              (state (two_items_at Step.order_summary (Some pickup) None))
              _ eq_refl) as (H & _).
  apply H. simpl. intros [E|[E|[E|[]]]]; discriminate E.
Defined.

Lemma payment_confirmed_is_never_reset_witness :
  Forall (fun s' => payment_confirmed s' = Some true)
    [ apply_update (state (two_items_at Step.payment (Some pickup) (Some true)))
        (go_back_to_order (two_items_at Step.payment (Some pickup) (Some true))) ].
Proof.
  apply (payment_confirmed_is_never_reset compensated [call_go_back_to_order] "call_7"
           (state (two_items_at Step.payment (Some pickup) (Some true)))).
  - reflexivity.
  - reflexivity.
Defined.

Lemma tool_calls_append_their_messages_witness :
  exists texts,
    List.length texts = List.length pickup_scenario /\
    messages
      (match final_state compensated pickup_scenario "call_1" (initial_state "Hi") with
       | Ok s' => s'
       | Raise _ => initial_state "Hi"
       end)
    = (messages (initial_state "Hi")
         ++ map (fun text => ToolMessage text "call_1") texts)%list.
Proof.
  apply (tool_calls_append_their_messages compensated pickup_scenario "call_1"
           (initial_state "Hi")).
  vm_compute. reflexivity.
Defined.

(** ** Positions in the item list *)


Lemma remove_item_shifts_positions_witness :
  exists c items',
    remove_item plain 1 collecting_two_items = Ok c /\
    upd_order_items c = Some items' /\
    S (List.length items') = List.length two_items /\
    forall k : nat,
      nth_error items' k
      = nth_error two_items (if (Z.of_nat k <? 1 - 1) then k else S k).
Proof.
  apply (remove_item_shifts_positions plain collecting_two_items 1 two_items).
  - reflexivity.
  - repeat constructor.
  - simpl. lia.
Defined.

(** ** The workflow under the step selector *)

Lemma delivered_reachable (version : SumAlgorithm) :
  reachable version (delivered version).
Proof.
  apply (reachable_run version delivery_scenario "call_1"
           (initial_state "Hi, I'd like to order some pizza")).
  - apply reach_initial.
  - destruct version; vm_compute; reflexivity.
Qed.

Lemma start_order_only_first_witness :
  step_of (delivered plain) <> Step.greeting /\
  offered (delivered plain) call_start_order = false.
Proof.
  destruct (start_order_only_first plain (delivered plain) (delivered_reachable plain))
    as [H _].
  split.
  - apply H. vm_compute. discriminate.
  - vm_compute. reflexivity.
Defined.


Lemma required_keys_are_present_witness :
  Forall (fun key => has_key (delivered plain) key = true)
    ["order_items"; "order_type"].
Proof.
  exact (required_keys_are_present plain (delivered plain) (delivered_reachable plain)).
Defined.

Lemma delivery_has_an_address_witness :
  current_step (delivered plain) = Some Step.payment /\
  order_type (delivered plain) = Some delivery /\
  delivery_address (delivered plain) <> None.
Proof.
  destruct (delivery_has_an_address plain (delivered plain) (delivered_reachable plain))
    as [_ H].
  assert (E : current_step (delivered plain) = Some Step.payment)
    by (vm_compute; reflexivity).
  assert (T : order_type (delivered plain) = Some delivery)
    by (vm_compute; reflexivity).
  split; [exact E|]. split; [exact T|].
  destruct (H (or_intror E)) as [_ Ha]. exact (Ha T).
Defined.

Lemma payment_flag_in_conversation_witness :
  payment_confirmed (delivered plain) = Some true /\
  order_type (delivered plain) <> None.
Proof.
  destruct (payment_flag_in_conversation plain (delivered plain)
              (delivered_reachable plain)) as [_ H].
  assert (E : payment_confirmed (delivered plain) = Some true)
    by (vm_compute; reflexivity).
  split; [exact E | exact (H E)].
Defined.

(** ** The reply the chat loop prints *)

Lemma tool_calls_keep_the_printed_reply_witness :
  printed_reply
    (messages
       (apply_update
          (with_messages [HumanMessage "Hi"; AIMessage "Welcome! Ready to order?"]
             (state greeting_runtime))
          (start_order
             {| state :=
                  with_messages
                    [HumanMessage "Hi"; AIMessage "Welcome! Ready to order?"]
                    (state greeting_runtime);
                tool_call_id := "call_1" |})))
  = printed_reply [HumanMessage "Hi"; AIMessage "Welcome! Ready to order?"].
Proof.
  apply (tool_calls_keep_the_printed_reply plain [call_start_order] "call_1"
           (with_messages [HumanMessage "Hi"; AIMessage "Welcome! Ready to order?"]
              (state greeting_runtime))).
  reflexivity.
Defined.
